(** * Payment lifecycle and webhook reconciliation of the laboratory backend

    A shallow embedding of [backend/models/Payment.js] (the payment document,
    its pre-save hook and its instance methods) and of [backend/routes/payment.js]
    (the initialize, verify and Paystack-webhook handlers), with the statements
    the specification makes about them.

    Conventions of the model:
    - a MongoDB collection is a list of documents, [findOne] returns the first
      match, [save] replaces the document with the same [_id] or appends it;
    - store operations do not fail: a rejected [find]/[save] (lost connection,
      schema validator, unique index) is outside the model, and so is the
      casting the schema applies to an assigned value;
    - amounts and dates are integers (dates in milliseconds);
    - [new Date()], the random part of a generated reference, the fresh
      [_id], the answers of the payment provider and [JSON.parse] are inputs
      of a handler run ([Env]); one run reads one time;
    - every call made to the provider is appended to a log in the world, so
      that "no gateway call" is a statement about that log;
    - Node's [crypto] HMAC-SHA-512 is written out (FIPS 180-4, RFC 2104) and
      checked against published vectors. *)

From Stdlib Require Import String Ascii ZArith List Bool Lia DecimalString.
Import ListNotations.
Local Open Scope string_scope.
Local Open Scope Z_scope.
Set Warnings "-register-all".

(** ** Node's [crypto]: SHA-512 and HMAC *)

Module Crypto.

Local Open Scope list_scope.

Definition w64 : Z := 2 ^ 64.
Definition add64 (x y : Z) : Z := (x + y) mod w64.
Definition not64 (x : Z) : Z := w64 - 1 - x.
Definition ROTR (n x : Z) : Z :=
  Z.lor (Z.shiftr x n) ((Z.shiftl x (64 - n)) mod w64).
Definition SHR (n x : Z) : Z := Z.shiftr x n.

Definition Ch (x y z : Z) : Z := Z.lxor (Z.land x y) (Z.land (not64 x) z).
Definition Maj (x y z : Z) : Z :=
  Z.lxor (Z.lxor (Z.land x y) (Z.land x z)) (Z.land y z).
Definition Sigma0 (x : Z) : Z := Z.lxor (Z.lxor (ROTR 28 x) (ROTR 34 x)) (ROTR 39 x).
Definition Sigma1 (x : Z) : Z := Z.lxor (Z.lxor (ROTR 14 x) (ROTR 18 x)) (ROTR 41 x).
Definition sigma0 (x : Z) : Z := Z.lxor (Z.lxor (ROTR 1 x) (ROTR 8 x)) (SHR 7 x).
Definition sigma1 (x : Z) : Z := Z.lxor (Z.lxor (ROTR 19 x) (ROTR 61 x)) (SHR 6 x).

Definition K512 : list Z :=
[ 0x428a2f98d728ae22; 0x7137449123ef65cd; 0xb5c0fbcfec4d3b2f; 0xe9b5dba58189dbbc;
  0x3956c25bf348b538; 0x59f111f1b605d019; 0x923f82a4af194f9b; 0xab1c5ed5da6d8118;
  0xd807aa98a3030242; 0x12835b0145706fbe; 0x243185be4ee4b28c; 0x550c7dc3d5ffb4e2;
  0x72be5d74f27b896f; 0x80deb1fe3b1696b1; 0x9bdc06a725c71235; 0xc19bf174cf692694;
  0xe49b69c19ef14ad2; 0xefbe4786384f25e3; 0x0fc19dc68b8cd5b5; 0x240ca1cc77ac9c65;
  0x2de92c6f592b0275; 0x4a7484aa6ea6e483; 0x5cb0a9dcbd41fbd4; 0x76f988da831153b5;
  0x983e5152ee66dfab; 0xa831c66d2db43210; 0xb00327c898fb213f; 0xbf597fc7beef0ee4;
  0xc6e00bf33da88fc2; 0xd5a79147930aa725; 0x06ca6351e003826f; 0x142929670a0e6e70;
  0x27b70a8546d22ffc; 0x2e1b21385c26c926; 0x4d2c6dfc5ac42aed; 0x53380d139d95b3df;
  0x650a73548baf63de; 0x766a0abb3c77b2a8; 0x81c2c92e47edaee6; 0x92722c851482353b;
  0xa2bfe8a14cf10364; 0xa81a664bbc423001; 0xc24b8b70d0f89791; 0xc76c51a30654be30;
  0xd192e819d6ef5218; 0xd69906245565a910; 0xf40e35855771202a; 0x106aa07032bbd1b8;
  0x19a4c116b8d2d0c8; 0x1e376c085141ab53; 0x2748774cdf8eeb99; 0x34b0bcb5e19b48a8;
  0x391c0cb3c5c95a63; 0x4ed8aa4ae3418acb; 0x5b9cca4f7763e373; 0x682e6ff3d6b2b8a3;
  0x748f82ee5defb2fc; 0x78a5636f43172f60; 0x84c87814a1f0ab72; 0x8cc702081a6439ec;
  0x90befffa23631e28; 0xa4506cebde82bde9; 0xbef9a3f7b2c67915; 0xc67178f2e372532b;
  0xca273eceea26619c; 0xd186b8c721c0c207; 0xeada7dd6cde0eb1e; 0xf57d4f7fee6ed178;
  0x06f067aa72176fba; 0x0a637dc5a2c898a6; 0x113f9804bef90dae; 0x1b710b35131c471b;
  0x28db77f523047d84; 0x32caab7b40c72493; 0x3c9ebe0a15c9bebc; 0x431d67c49c100d4c;
  0x4cc5d4becb3e42b6; 0x597f299cfc657e2a; 0x5fcb6fab3ad6faec; 0x6c44198c4a475817 ].

Definition H512 : list Z :=
[ 0x6a09e667f3bcc908; 0xbb67ae8584caa73b; 0x3c6ef372fe94f82b; 0xa54ff53a5f1d36f1;
  0x510e527fade682d1; 0x9b05688c2b3e6c1f; 0x1f83d9abfb41bd6b; 0x5be0cd19137e2179 ].

(** Bytes are the codes of a string's characters. *)
Definition bytes_of_string (s : string) : list Z :=
  map (fun c => Z.of_nat (nat_of_ascii c)) (list_ascii_of_string s).

(** Big-endian encoding of [x] on [n] bytes. *)
Fixpoint be_bytes (n : nat) (x : Z) : list Z :=
  match n with
  | O => []
  | S n' => (Z.shiftr x (8 * Z.of_nat n')) mod 256 :: be_bytes n' x
  end.

Definition be_word (bs : list Z) : Z :=
  fold_left (fun acc b => acc * 256 + b) bs 0.

(** Padding of section 5.1.2: a one bit, zeros up to 112 mod 128, then the
    bit length on 128 bits. *)
Definition pad (msg : list Z) : list Z :=
  let l := Z.of_nat (length msg) in
  let k := (111 - l) mod 128 in
  msg ++ [128] ++ repeat 0 (Z.to_nat k) ++ be_bytes 16 (8 * l).

Fixpoint chunks (fuel : nat) (n : nat) (l : list Z) : list (list Z) :=
  match fuel, l with
  | O, _ => []
  | _, [] => []
  | S f, _ => firstn n l :: chunks f n (skipn n l)
  end.

(** The message schedule, built newest word first. *)
Fixpoint schedule (n : nat) (rev_w : list Z) : list Z :=
  match n with
  | O => rev_w
  | S n' =>
      let wt := add64 (add64 (sigma1 (nth 1 rev_w 0)) (nth 6 rev_w 0))
                      (add64 (sigma0 (nth 14 rev_w 0)) (nth 15 rev_w 0)) in
      schedule n' (wt :: rev_w)
  end.

Record regs := Regs { ra : Z; rb : Z; rc : Z; rd : Z; re : Z; rf : Z; rg : Z; rh : Z }.

Definition round (r : regs) (kw : Z * Z) : regs :=
  let t1 := add64 (add64 (add64 (rh r) (Sigma1 (re r))) (Ch (re r) (rf r) (rg r)))
                  (add64 (fst kw) (snd kw)) in
  let t2 := add64 (Sigma0 (ra r)) (Maj (ra r) (rb r) (rc r)) in
  Regs (add64 t1 t2) (ra r) (rb r) (rc r) (add64 (rd r) t1) (re r) (rf r) (rg r).

Definition compress (h : regs) (block : list Z) : regs :=
  let w16 := map be_word (chunks 16 8 block) in
  let ws := rev (schedule 64 (rev w16)) in
  let r := fold_left round (combine K512 ws) h in
  Regs (add64 (ra h) (ra r)) (add64 (rb h) (rb r)) (add64 (rc h) (rc r))
       (add64 (rd h) (rd r)) (add64 (re h) (re r)) (add64 (rf h) (rf r))
       (add64 (rg h) (rg r)) (add64 (rh h) (rh r)).

Definition init_regs : regs :=
  Regs (nth 0 H512 0) (nth 1 H512 0) (nth 2 H512 0) (nth 3 H512 0)
       (nth 4 H512 0) (nth 5 H512 0) (nth 6 H512 0) (nth 7 H512 0).

Definition sha512 (msg : list Z) : list Z :=
  let p := pad msg in
  let r := fold_left compress (chunks (length p) 128 p) init_regs in
  flat_map (be_bytes 8) [ra r; rb r; rc r; rd r; re r; rf r; rg r; rh r].

(** RFC 2104 with a block of 128 bytes. *)
Definition hmac_sha512 (key msg : list Z) : list Z :=
  let k0 := if (128 <? Z.of_nat (length key)) then sha512 key else key in
  let k := k0 ++ repeat 0 (128 - length k0)%nat in
  let ipad := map (fun b => Z.lxor b 0x36) k in
  let opad := map (fun b => Z.lxor b 0x5c) k in
  sha512 (opad ++ sha512 (ipad ++ msg)).

Definition hex_digit (d : Z) : ascii :=
  if d <? 10 then ascii_of_nat (Z.to_nat (48 + d))
  else ascii_of_nat (Z.to_nat (87 + d)).

Fixpoint hex (bs : list Z) : string :=
  match bs with
  | [] => EmptyString
  | b :: bs' => String (hex_digit (b / 16)) (String (hex_digit (b mod 16)) (hex bs'))
  end.

(** [crypto.createHmac('sha512', key).update(data).digest('hex')] *)
Definition createHmac_sha512_hex (key data : string) : string :=
  hex (hmac_sha512 (bytes_of_string key) (bytes_of_string data)).

End Crypto.

(** ** JavaScript values *)

(** What a [throw] carries; [exn_message] is [error.message]. *)
Inductive Exn :=
| Error (message : string)
| TypeError (message : string)
| SyntaxError (message : string).

Definition exn_message (e : Exn) : string :=
  match e with Error m | TypeError m | SyntaxError m => m end.

Module JS.

(** A parsed JSON document. A JavaScript value is [option JSON], [None]
    being [undefined]. *)
Inductive JSON :=
| JNull
| JBool (b : bool)
| JNum (n : Z)
| JStr (s : string)
| JArr (items : list JSON)
| JObj (props : list (string * JSON)).

Definition JSValue := option JSON.
Definition undefined : JSValue := None.

(** [!!v] *)
Definition truthy (v : JSValue) : bool :=
  match v with
  | None | Some JNull => false
  | Some (JBool b) => b
  | Some (JNum n) => negb (n =? 0)
  | Some (JStr s) => negb (String.eqb s "")
  | Some (JArr _) | Some (JObj _) => true
  end.

Fixpoint assoc (k : string) (props : list (string * JSON)) : JSValue :=
  match props with
  | [] => None
  | (k', v) :: rest => if String.eqb k' k then Some v else assoc k rest
  end.

(** [v.k] for the property names the handlers read ([event], [data],
    [reference], [id], [status], [authorization_url], [access_code]):
    a [TypeError] on [undefined] and [null], the property of an object,
    [undefined] on every other value. *)
Definition get (v : JSValue) (k : string) : Exn + JSValue :=
  match v with
  | None => inl (TypeError ("Cannot read properties of undefined (reading '" ++ k ++ "')"))
  | Some JNull => inl (TypeError ("Cannot read properties of null (reading '" ++ k ++ "')"))
  | Some (JObj props) => inr (assoc k props)
  | Some _ => inr None
  end.

(** [v === s] for a string literal [s] *)
Definition strict_eq_string (v : JSValue) (s : string) : bool :=
  match v with
  | Some (JStr s') => String.eqb s' s
  | _ => false
  end.

(** [!s] for a value that is a string or [undefined] *)
Definition truthy_string (s : option string) : bool :=
  match s with
  | None => false
  | Some s => negb (String.eqb s "")
  end.

(** A default parameter value: it replaces [undefined] only. *)
Definition default_param (d : JSON) (v : JSValue) : JSValue :=
  match v with
  | None => Some d
  | Some _ => v
  end.

(** The decimal numeral that string concatenation gives an integer. *)
Definition decimal (n : Z) : string := NilZero.string_of_int (Z.to_int n).

Definition dquote : string := String (ascii_of_nat 34) EmptyString.

Fixpoint join_decimal (bs : list Z) : string :=
  match bs with
  | [] => ""
  | [b] => decimal b
  | b :: rest => decimal b ++ "," ++ join_decimal rest
  end.

(** [JSON.stringify(buf)] for a [Buffer]: the Buffer's [toJSON()] is
    [{ type: 'Buffer', data: [...bytes] }]. *)
Definition stringify_Buffer (buf : string) : string :=
  "{" ++ dquote ++ "type" ++ dquote ++ ":" ++ dquote ++ "Buffer" ++ dquote ++ ","
      ++ dquote ++ "data" ++ dquote ++ ":[" ++ join_decimal (Crypto.bytes_of_string buf) ++ "]}".

End JS.
Import JS.

(** ** The schemas *)

Inductive Currency := NGN | USD | EUR | GBP.
Inductive PaymentMethod := card | bank_transfer | ussd | qr | mobile_money | cash.
Inductive PaymentProvider :=
  paystack | flutterwave | stripe | provider_cash | provider_bank_transfer.
Inductive Status := pending | processing | completed | failed | cancelled | refunded.

Scheme Equality for PaymentMethod.
Scheme Equality for Status.

Module User.
Record doc := {
  _id : string;
  firstName : string;
  lastName : string;
  email : string
}.
End User.

(** The fields of a booking that the payment routes read or assign. *)
Module Booking.
Record doc := {
  _id : string;
  user : string;
  testType : string;
  referenceNumber : string;
  status : string;
  paymentStatus : option string;
  updatedAt : Z
}.

Definition confirm_paid (b : doc) : doc :=
  Build_doc (_id b) (user b) (testType b) (referenceNumber b)
    "confirmed" (Some "paid") (updatedAt b).

Definition set_updatedAt (v : Z) (b : doc) : doc :=
  Build_doc (_id b) (user b) (testType b) (referenceNumber b)
    (status b) (paymentStatus b) v.
End Booking.

(** [paymentSchema]. [createdAt]/[updatedAt] of the [timestamps] option are
    not part of the model; [transactionId] and [providerResponse] hold the
    value as the handlers assign it. *)
Module Payment.
Record doc := {
  _id : string;
  user : string;
  booking : string;
  amount : Z;
  currency : Currency;
  paymentMethod : PaymentMethod;
  paymentProvider : PaymentProvider;
  status : Status;
  transactionId : JSValue;
  reference : option string;
  providerResponse : JSValue;
  paidAt : option Z;
  dueDate : option Z;
  description : string;
  notes : string;
  refundAmount : Z;
  refundedAt : option Z;
  refundReason : string;
  verified : bool;
  verifiedAt : option Z;
  failureReason : string;
  retryCount : Z;
  metadata : JSValue
}.

Definition set_status (v : Status) (p : doc) : doc :=
  Build_doc (_id p) (user p) (booking p) (amount p) (currency p) (paymentMethod p)
    (paymentProvider p) v (transactionId p) (reference p) (providerResponse p)
    (paidAt p) (dueDate p) (description p) (notes p) (refundAmount p) (refundedAt p)
    (refundReason p) (verified p) (verifiedAt p) (failureReason p) (retryCount p)
    (metadata p).

Definition set_transactionId (v : JSValue) (p : doc) : doc :=
  Build_doc (_id p) (user p) (booking p) (amount p) (currency p) (paymentMethod p)
    (paymentProvider p) (status p) v (reference p) (providerResponse p) (paidAt p)
    (dueDate p) (description p) (notes p) (refundAmount p) (refundedAt p)
    (refundReason p) (verified p) (verifiedAt p) (failureReason p) (retryCount p)
    (metadata p).

Definition set_reference (v : option string) (p : doc) : doc :=
  Build_doc (_id p) (user p) (booking p) (amount p) (currency p) (paymentMethod p)
    (paymentProvider p) (status p) (transactionId p) v (providerResponse p) (paidAt p)
    (dueDate p) (description p) (notes p) (refundAmount p) (refundedAt p)
    (refundReason p) (verified p) (verifiedAt p) (failureReason p) (retryCount p)
    (metadata p).

Definition set_providerResponse (v : JSValue) (p : doc) : doc :=
  Build_doc (_id p) (user p) (booking p) (amount p) (currency p) (paymentMethod p)
    (paymentProvider p) (status p) (transactionId p) (reference p) v (paidAt p)
    (dueDate p) (description p) (notes p) (refundAmount p) (refundedAt p)
    (refundReason p) (verified p) (verifiedAt p) (failureReason p) (retryCount p)
    (metadata p).

Definition set_paidAt (v : option Z) (p : doc) : doc :=
  Build_doc (_id p) (user p) (booking p) (amount p) (currency p) (paymentMethod p)
    (paymentProvider p) (status p) (transactionId p) (reference p)
    (providerResponse p) v (dueDate p) (description p) (notes p) (refundAmount p)
    (refundedAt p) (refundReason p) (verified p) (verifiedAt p) (failureReason p)
    (retryCount p) (metadata p).

Definition set_refundAmount (v : Z) (p : doc) : doc :=
  Build_doc (_id p) (user p) (booking p) (amount p) (currency p) (paymentMethod p)
    (paymentProvider p) (status p) (transactionId p) (reference p)
    (providerResponse p) (paidAt p) (dueDate p) (description p) (notes p) v
    (refundedAt p) (refundReason p) (verified p) (verifiedAt p) (failureReason p)
    (retryCount p) (metadata p).

Definition set_refundedAt (v : option Z) (p : doc) : doc :=
  Build_doc (_id p) (user p) (booking p) (amount p) (currency p) (paymentMethod p)
    (paymentProvider p) (status p) (transactionId p) (reference p)
    (providerResponse p) (paidAt p) (dueDate p) (description p) (notes p)
    (refundAmount p) v (refundReason p) (verified p) (verifiedAt p) (failureReason p)
    (retryCount p) (metadata p).

Definition set_refundReason (v : string) (p : doc) : doc :=
  Build_doc (_id p) (user p) (booking p) (amount p) (currency p) (paymentMethod p)
    (paymentProvider p) (status p) (transactionId p) (reference p)
    (providerResponse p) (paidAt p) (dueDate p) (description p) (notes p)
    (refundAmount p) (refundedAt p) v (verified p) (verifiedAt p) (failureReason p)
    (retryCount p) (metadata p).

Definition set_verified (v : bool) (p : doc) : doc :=
  Build_doc (_id p) (user p) (booking p) (amount p) (currency p) (paymentMethod p)
    (paymentProvider p) (status p) (transactionId p) (reference p)
    (providerResponse p) (paidAt p) (dueDate p) (description p) (notes p)
    (refundAmount p) (refundedAt p) (refundReason p) v (verifiedAt p)
    (failureReason p) (retryCount p) (metadata p).

Definition set_verifiedAt (v : option Z) (p : doc) : doc :=
  Build_doc (_id p) (user p) (booking p) (amount p) (currency p) (paymentMethod p)
    (paymentProvider p) (status p) (transactionId p) (reference p)
    (providerResponse p) (paidAt p) (dueDate p) (description p) (notes p)
    (refundAmount p) (refundedAt p) (refundReason p) (verified p) v (failureReason p)
    (retryCount p) (metadata p).

Definition set_failureReason (v : string) (p : doc) : doc :=
  Build_doc (_id p) (user p) (booking p) (amount p) (currency p) (paymentMethod p)
    (paymentProvider p) (status p) (transactionId p) (reference p)
    (providerResponse p) (paidAt p) (dueDate p) (description p) (notes p)
    (refundAmount p) (refundedAt p) (refundReason p) (verified p) (verifiedAt p) v
    (retryCount p) (metadata p).

Definition set_retryCount (v : Z) (p : doc) : doc :=
  Build_doc (_id p) (user p) (booking p) (amount p) (currency p) (paymentMethod p)
    (paymentProvider p) (status p) (transactionId p) (reference p)
    (providerResponse p) (paidAt p) (dueDate p) (description p) (notes p)
    (refundAmount p) (refundedAt p) (refundReason p) (verified p) (verifiedAt p)
    (failureReason p) v (metadata p).
End Payment.

(** ** The world of a handler: collections, provider, clock *)

(** The body sent to [POST https://api.paystack.co/transaction/initialize]. *)
Record InitializePayload := {
  ip_amount : Z;
  ip_email : string;
  ip_reference : option string;
  ip_currency : Currency;
  ip_callback_url : string;
  ip_payment_id : string;
  ip_booking_id : string;
  ip_test_type : string;
  ip_booking_reference : string
}.

(** An outbound request, with its [Authorization] header. *)
Inductive GatewayCall :=
| PostInitialize (authorization : string) (payload : InitializePayload)
| GetVerify (authorization : string) (reference : string).

(** What an awaited axios call gives: the parsed response body
    ([response.data]) or a rejection (transport failure, non-2xx status). *)
Inductive AxiosResult :=
| Resolved (data : JSValue)
| Rejected (message : string).

Record World := {
  users : list User.doc;
  bookings : list Booking.doc;
  payments : list Payment.doc;
  gateway_log : list GatewayCall
}.

Record Env := {
  now : Z;                                   (* new Date(), Date.now() *)
  random36 : string;                         (* Math.random().toString(36)... *)
  fresh_id : string;                         (* the ObjectId of a new document *)
  env_PAYSTACK_SECRET_KEY : option string;   (* process.env.PAYSTACK_SECRET_KEY *)
  env_FRONTEND_URL : option string;          (* process.env.FRONTEND_URL *)
  axios : GatewayCall -> AxiosResult;        (* the provider's answer *)
  JSON_parse : string -> option JSON         (* None is a SyntaxError *)
}.

(** [process.env.X || fallback] *)
Definition env_or (v : option string) (fallback : string) : string :=
  if truthy_string v then match v with Some s => s | None => fallback end
  else fallback.

Definition PAYSTACK_SECRET_KEY (env : Env) : string :=
  env_or (env_PAYSTACK_SECRET_KEY env) "sk_test_your_secret_key".

(** State and exceptions: a computation runs in a world and either returns or
    throws; what it wrote before throwing stays written. *)
Definition M (A : Type) : Type := World -> (Exn + A) * World.

Definition ret {A} (a : A) : M A := fun w => (inr a, w).
Definition throw {A} (e : Exn) : M A := fun w => (inl e, w).
Definition bind {A B} (c : M A) (k : A -> M B) : M B :=
  fun w => match c w with
           | (inl e, w') => (inl e, w')
           | (inr a, w') => k a w'
           end.
Definition lift {A} (r : Exn + A) : M A := fun w => (r, w).

Declare Scope monad_scope.
Delimit Scope monad_scope with monad.
Notation "x <- c ;; k" := (bind c (fun x => k))
  (at level 61, c at next level, right associativity) : monad_scope.
Notation "c ;;; k" := (bind c (fun _ => k))
  (at level 61, right associativity) : monad_scope.
Local Open Scope monad_scope.

Record Response (B : Type) := { statusCode : nat; body : B }.
Arguments statusCode {B} _.
Arguments body {B} _.
Definition json {B} (code : nat) (b : B) : Response B :=
  {| statusCode := code; body := b |}.

(** [try { ... } catch (error) { res.status(500).json(...) }] *)
Definition try_catch {B} (c : M (Response B)) (handler : Exn -> Response B)
  : World -> Response B * World :=
  fun w => match c w with
           | (inr r, w') => (r, w')
           | (inl e, w') => (handler e, w')
           end.

(** *** Collections *)

Definition findOne {D} (filter : D -> bool) (coll : list D) : option D :=
  find filter coll.

Definition upsert {D} (id : D -> string) (d : D) (coll : list D) : list D :=
  if existsb (fun x => String.eqb (id x) (id d)) coll
  then map (fun x => if String.eqb (id x) (id d) then d else x) coll
  else (coll ++ [d])%list.

Definition with_payments (l : list Payment.doc) (w : World) : World :=
  {| users := users w; bookings := bookings w; payments := l;
     gateway_log := gateway_log w |}.

Definition with_bookings (l : list Booking.doc) (w : World) : World :=
  {| users := users w; bookings := l; payments := payments w;
     gateway_log := gateway_log w |}.

Definition logged (call : GatewayCall) (w : World) : World :=
  {| users := users w; bookings := bookings w; payments := payments w;
     gateway_log := (gateway_log w ++ [call])%list |}.

Definition Payment_findOne (filter : Payment.doc -> bool) : M (option Payment.doc) :=
  fun w => (inr (findOne filter (payments w)), w).

Definition Booking_findOne (filter : Booking.doc -> bool) : M (option Booking.doc) :=
  fun w => (inr (findOne filter (bookings w)), w).

Definition Booking_findById (id : string) : M (option Booking.doc) :=
  Booking_findOne (fun b => String.eqb (Booking._id b) id).

Definition User_findById (id : string) : M (option User.doc) :=
  fun w => (inr (findOne (fun u => String.eqb (User._id u) id) (users w)), w).

Definition write_payment (p : Payment.doc) : M unit :=
  fun w => (inr tt, with_payments (upsert Payment._id p (payments w)) w).

Definition write_booking (b : Booking.doc) : M unit :=
  fun w => (inr tt, with_bookings (upsert Booking._id b (bookings w)) w).

(** An awaited axios call: logged, then resolved or thrown. *)
Definition await_axios (env : Env) (call : GatewayCall) : M JSValue :=
  fun w =>
    match axios env call with
    | Resolved data => (inr data, logged call w)
    | Rejected message => (inl (Error message), logged call w)
    end.

(** ** models/Booking.js *)

(** [bookingSchema.pre('save')] and the write. *)
Definition Booking_save (env : Env) (this : Booking.doc) : M Booking.doc :=
  let this := Booking.set_updatedAt (now env) this in
  write_booking this ;;; ret this.

(** ** models/Payment.js *)

Definition is_some {A} (o : option A) : bool :=
  match o with Some _ => true | None => false end.

(** [paymentSchema.pre('save')] *)
Definition pre_save (env : Env) (this : Payment.doc) : Payment.doc :=
  let this :=
    if negb (truthy_string (Payment.reference this))
    then Payment.set_reference
           (Some ("PAY_" ++ decimal (now env) ++ "_" ++ random36 env)) this
    else this in
  let this :=
    if Status_beq (Payment.status this) completed && negb (is_some (Payment.paidAt this))
    then Payment.set_verifiedAt (Some (now env))
           (Payment.set_verified true
              (Payment.set_paidAt (Some (now env)) this))
    else this in
  let this :=
    if Status_beq (Payment.status this) refunded && negb (is_some (Payment.refundedAt this))
    then Payment.set_refundedAt (Some (now env)) this
    else this in
  this.

(** [this.save()]: the hook, then the write; the document as the caller
    sees it afterwards is returned. *)
Definition Payment_save (env : Env) (this : Payment.doc) : M Payment.doc :=
  let this := pre_save env this in
  write_payment this ;;; ret this.

Definition markAsCompleted (env : Env) (transactionId providerResponse : JSValue)
    (this : Payment.doc) : M Payment.doc :=
  let providerResponse := default_param (JObj []) providerResponse in
  let this := Payment.set_status completed this in
  let this := Payment.set_transactionId transactionId this in
  let this := Payment.set_providerResponse providerResponse this in
  let this := Payment.set_paidAt (Some (now env)) this in
  let this := Payment.set_verified true this in
  let this := Payment.set_verifiedAt (Some (now env)) this in
  Payment_save env this.

Definition markAsFailed (env : Env) (reason : string) (providerResponse : JSValue)
    (this : Payment.doc) : M Payment.doc :=
  let providerResponse := default_param (JObj []) providerResponse in
  let this := Payment.set_status failed this in
  let this := Payment.set_failureReason reason this in
  let this := Payment.set_providerResponse providerResponse this in
  let this := Payment.set_retryCount (Payment.retryCount this + 1) this in
  Payment_save env this.

Definition processRefund (env : Env) (amount : Z) (reason : string)
    (this : Payment.doc) : M Payment.doc :=
  if negb (Status_beq (Payment.status this) completed) then
    throw (Error "Can only refund completed payments")
  else if amount >? Payment.amount this then
    throw (Error "Refund amount cannot exceed payment amount")
  else
    let this := Payment.set_status refunded this in
    let this := Payment.set_refundAmount amount this in
    let this := Payment.set_refundReason reason this in
    let this := Payment.set_refundedAt (Some (now env)) this in
    Payment_save env this.

(** ** routes/payment.js *)

(** [verifyPaystackSignature]: the payload is the request body, a [Buffer];
    the signature is the header's value, [None] when the header is absent. *)
Definition verifyPaystackSignature (env : Env) (payload : string)
    (signature : option string) : bool :=
  let hash :=
    Crypto.createHmac_sha512_hex (PAYSTACK_SECRET_KEY env) (stringify_Buffer payload) in
  match signature with
  | Some signature => String.eqb hash signature
  | None => false
  end.

(** The payment object of the two 201 answers of [/initialize]; the last two
    keys are present for an online payment only. *)
Record Summary := {
  s_id : string;
  s_reference : option string;
  s_amount : Z;
  s_currency : Currency;
  s_status : Status;
  s_paymentMethod : PaymentMethod;
  s_authorization : option (JSValue * JSValue)     (* authorization_url, access_code *)
}.

(** A payment document after [.populate('booking').populate('user', ...)]. *)
Record Populated := {
  doc : Payment.doc;
  populated_booking : option Booking.doc;
  populated_user : option User.doc
}.

Inductive Body :=
| Body_error (error : string) (message : option string)
| Body_initialized (message : string) (payment : Summary)
| Body_payment (payment : Populated)          (* { success: true, payment } *)
| Body_OK.                                    (* res.sendStatus(200) *)

Module InitializeRequest.
(** [req.user] as the [protect] middleware left it, and [req.body]; a key
    that is absent is [None]. *)
Record t := {
  user : option User.doc;
  bookingId : option string;
  amount : option Z;
  paymentMethod : option PaymentMethod;
  currency : option Currency
}.
End InitializeRequest.

Definition summary (payment : Payment.doc) (authorization : option (JSValue * JSValue))
  : Summary :=
  {| s_id := Payment._id payment;
     s_reference := Payment.reference payment;
     s_amount := Payment.amount payment;
     s_currency := Payment.currency payment;
     s_status := Payment.status payment;
     s_paymentMethod := Payment.paymentMethod payment;
     s_authorization := authorization |}.

(** [new Payment({ ... })] with the schema's defaults. *)
Definition new_Payment (env : Env) (user : User.doc) (bookingId : string) (amount : Z)
    (currency : Currency) (paymentMethod : PaymentMethod) (booking : Booking.doc)
  : Payment.doc :=
  {| Payment._id := fresh_id env;
     Payment.user := User._id user;
     Payment.booking := bookingId;
     Payment.amount := amount;
     Payment.currency := currency;
     Payment.paymentMethod := paymentMethod;
     Payment.paymentProvider :=
       if PaymentMethod_beq paymentMethod cash then provider_cash else paystack;
     Payment.status := pending;
     Payment.transactionId := undefined;
     Payment.reference := None;
     Payment.providerResponse := Some (JObj []);
     Payment.paidAt := None;
     Payment.dueDate := None;
     Payment.description :=
       "Payment for " ++ Booking.testType booking ++ " - " ++ Booking.referenceNumber booking;
     Payment.notes := "";
     Payment.refundAmount := 0;
     Payment.refundedAt := None;
     Payment.refundReason := "";
     Payment.verified := false;
     Payment.verifiedAt := None;
     Payment.failureReason := "";
     Payment.retryCount := 0;
     Payment.metadata :=
       Some (JObj [("bookingReference", JStr (Booking.referenceNumber booking));
                   ("testType", JStr (Booking.testType booking));
                   ("customerName", JStr (User.firstName user ++ " " ++ User.lastName user));
                   ("customerEmail", JStr (User.email user))]) |}.

Definition initialize_payload (env : Env) (user : User.doc) (bookingId : string)
    (amount : Z) (currency : Currency) (booking : Booking.doc) (payment : Payment.doc)
  : InitializePayload :=
  {| ip_amount := amount * 100;
     ip_email := User.email user;
     ip_reference := Payment.reference payment;
     ip_currency := currency;
     ip_callback_url :=
       env_or (env_FRONTEND_URL env) "http://localhost:3000" ++ "/dashboard?payment=success";
     ip_payment_id := Payment._id payment;
     ip_booking_id := bookingId;
     ip_test_type := Booking.testType booking;
     ip_booking_reference := Booking.referenceNumber booking |}.

(** [req.user] read for a property. *)
Definition req_user (u : option User.doc) : Exn + User.doc :=
  match u with
  | Some u => inr u
  | None => inl (TypeError "Cannot read properties of null (reading '_id')")
  end.

Definition active_for (bookingId : string) (p : Payment.doc) : bool :=
  String.eqb (Payment.booking p) bookingId
  && (Status_beq (Payment.status p) completed || Status_beq (Payment.status p) processing).

(** [router.post('/initialize', protect, ...)] *)
Definition initialize (env : Env) (req : InitializeRequest.t)
  : World -> Response Body * World :=
  try_catch
    (let paymentMethod :=
       match InitializeRequest.paymentMethod req with Some m => m | None => card end in
     let currency :=
       match InitializeRequest.currency req with Some c => c | None => NGN end in
     match InitializeRequest.bookingId req, InitializeRequest.amount req with
     | Some bookingId, Some amount =>
       if String.eqb bookingId "" || (amount =? 0) then
         ret (json 400 (Body_error "Booking ID and amount are required" None))
       else
         user <- lift (req_user (InitializeRequest.user req)) ;;
         booking <- Booking_findOne
                      (fun b => String.eqb (Booking._id b) bookingId
                                && String.eqb (Booking.user b) (User._id user)) ;;
         match booking with
         | None => ret (json 404 (Body_error "Booking not found" None))
         | Some booking =>
           existingPayment <- Payment_findOne (active_for bookingId) ;;
           match existingPayment with
           | Some _ =>
             ret (json 400 (Body_error "Payment already exists for this booking" None))
           | None =>
             payment <- Payment_save env
                          (new_Payment env user bookingId amount currency paymentMethod booking) ;;
             if PaymentMethod_beq paymentMethod cash then
               ret (json 201 (Body_initialized "Cash payment initialized"
                                (summary payment None)))
             else
               paystackResponse_data <-
                 await_axios env
                   (PostInitialize ("Bearer " ++ PAYSTACK_SECRET_KEY env)
                      (initialize_payload env user bookingId amount currency booking payment)) ;;
               ok <- lift (get paystackResponse_data "status") ;;
               if truthy ok then
                 data <- lift (get paystackResponse_data "data") ;;
                 let payment := Payment.set_status processing payment in
                 let payment := Payment.set_providerResponse data payment in
                 payment <- Payment_save env payment ;;
                 authorization_url <- lift (get data "authorization_url") ;;
                 access_code <- lift (get data "access_code") ;;
                 ret (json 201 (Body_initialized "Payment initialized successfully"
                                  (summary payment (Some (authorization_url, access_code)))))
               else
                 throw (Error "Failed to initialize payment with Paystack")
           end
         end
     | _, _ => ret (json 400 (Body_error "Booking ID and amount are required" None))
     end)
    (fun error => json 500 (Body_error "Failed to initialize payment"
                               (Some (exn_message error)))).

(** [.populate('booking').populate('user', 'firstName lastName email')] *)
Definition populate (payment : Payment.doc) : M Populated :=
  booking <- Booking_findById (Payment.booking payment) ;;
  user <- User_findById (Payment.user payment) ;;
  ret {| doc := payment; populated_booking := booking; populated_user := user |}.

(** The filter of [Payment.findOne({ reference })] for a route parameter. *)
Definition referenced (reference : string) (p : Payment.doc) : bool :=
  match Payment.reference p with
  | Some r => String.eqb r reference
  | None => false
  end.

(** [router.post('/verify/:reference', protect, ...)] *)
Definition verify (env : Env) (reference : string) : World -> Response Body * World :=
  try_catch
    (found <- Payment_findOne (referenced reference) ;;
     match found with
     | None => ret (json 404 (Body_error "Payment not found" None))
     | Some found =>
       payment <- populate found ;;
       payment <-
         (if negb (PaymentMethod_beq (Payment.paymentMethod (doc payment)) cash) then
            verificationResponse_data <-
              await_axios env (GetVerify ("Bearer " ++ PAYSTACK_SECRET_KEY env) reference) ;;
            verificationData <- lift (get verificationResponse_data "data") ;;
            st <- lift (get verificationData "status") ;;
            if strict_eq_string st "success" then
              id <- lift (get verificationData "id") ;;
              d <- markAsCompleted env id verificationData (doc payment) ;;
              match populated_booking payment with
              | Some booking =>
                booking <- Booking_save env (Booking.confirm_paid booking) ;;
                ret {| doc := d; populated_booking := Some booking;
                       populated_user := populated_user payment |}
              | None =>
                ret {| doc := d; populated_booking := None;
                       populated_user := populated_user payment |}
              end
            else
              d <- markAsFailed env "Payment verification failed" verificationData
                     (doc payment) ;;
              ret {| doc := d; populated_booking := populated_booking payment;
                     populated_user := populated_user payment |}
          else ret payment) ;;
       ret (json 200 (Body_payment payment))
     end)
    (fun error => json 500 (Body_error "Failed to verify payment"
                               (Some (exn_message error)))).

Module WebhookRequest.
(** The raw body that [express.raw] leaves in [req.body] as a [Buffer] (the
    bytes of a request of type [application/json]), and
    [req.headers['x-paystack-signature']]. *)
Record t := {
  body : string;
  x_paystack_signature : option string
}.
End WebhookRequest.

(** [Payment.findOne({ reference })] for a value read from an event: a stored
    reference is a string, and a string is the only value taken to match it. *)
Definition has_reference (reference : JSValue) (p : Payment.doc) : bool :=
  match reference, Payment.reference p with
  | Some (JStr s), Some r => String.eqb r s
  | _, _ => false
  end.

Definition parse (env : Env) (text : string) : Exn + JSValue :=
  match JSON_parse env text with
  | Some v => inr (Some v)
  | None => inl (SyntaxError "Unexpected token in JSON")
  end.

(** The signature gate of the webhook: the header is present and not empty,
    and it is the hash the handler computes. *)
Definition authentic (env : Env) (req : WebhookRequest.t) : bool :=
  truthy_string (WebhookRequest.x_paystack_signature req)
  && verifyPaystackSignature env (WebhookRequest.body req)
       (WebhookRequest.x_paystack_signature req).

(** [router.post('/webhook/paystack', express.raw(...), ...)] *)
Definition webhook_paystack (env : Env) (req : WebhookRequest.t)
  : World -> Response Body * World :=
  try_catch
    (let signature := WebhookRequest.x_paystack_signature req in
     if negb (truthy_string signature)
        || negb (verifyPaystackSignature env (WebhookRequest.body req) signature) then
       ret (json 400 (Body_error "Invalid signature" None))
     else
       event <- lift (parse env (WebhookRequest.body req)) ;;
       name <- lift (get event "event") ;;
       (if strict_eq_string name "charge.success" then
          data <- lift (get event "data") ;;
          reference <- lift (get data "reference") ;;
          transactionId <- lift (get data "id") ;;
          payment <- Payment_findOne (has_reference reference) ;;
          match payment with
          | Some payment =>
            if negb (Status_beq (Payment.status payment) completed) then
              payment <- markAsCompleted env transactionId data payment ;;
              booking <- Booking_findById (Payment.booking payment) ;;
              match booking with
              | Some booking =>
                Booking_save env (Booking.confirm_paid booking) ;;; ret tt
              | None => ret tt
              end
            else ret tt
          | None => ret tt
          end
        else if strict_eq_string name "charge.failed" then
          data <- lift (get event "data") ;;
          reference <- lift (get data "reference") ;;
          payment <- Payment_findOne (has_reference reference) ;;
          match payment with
          | Some payment => markAsFailed env "Payment failed" data payment ;;; ret tt
          | None => ret tt
          end
        else ret tt) ;;;
       ret (json 200 Body_OK))
    (fun error => json 500 (Body_error "Webhook processing failed"
                               (Some (exn_message error)))).

(** ** Vocabulary of the statements *)

(** The stored payment with a given [_id]. *)
Definition Payment_byId (id : string) (w : World) : option Payment.doc :=
  findOne (fun p => String.eqb (Payment._id p) id) (payments w).



Definition is_nullish (v : JSValue) : bool :=
  match v with
  | None | Some JNull => true
  | Some _ => false
  end.



(** ** Sample data

    A user with one booking, the provider's answers and three webhook
    deliveries, used to run the handlers on concrete requests. *)

Definition quoted (s : string) : string := dquote ++ s ++ dquote.

Definition ada : User.doc :=
  {| User._id := "u1"; User.firstName := "Ada"; User.lastName := "Obi";
     User.email := "ada@example.com" |}.

Definition booking1 : Booking.doc :=
  {| Booking._id := "b1"; Booking.user := "u1"; Booking.testType := "blood";
     Booking.referenceNumber := "MLAB17"; Booking.status := "pending";
     Booking.paymentStatus := None; Booking.updatedAt := 1699999000000 |}.

Definition world0 : World :=
  {| users := [ada]; bookings := [booking1]; payments := []; gateway_log := [] |}.

Definition ref1 : string := "PAY_1700000000000_X7K2M9QPA".

Definition charge_data : JSON :=
  JObj [("id", JNum 4099260516); ("reference", JStr ref1)].
Definition unknown_data : JSON :=
  JObj [("id", JNum 77); ("reference", JStr "PAY_0_FOREIGN")].

Definition body_success : string :=
  "{" ++ quoted "event" ++ ":" ++ quoted "charge.success" ++ ","
      ++ quoted "data" ++ ":{" ++ quoted "id" ++ ":4099260516,"
      ++ quoted "reference" ++ ":" ++ quoted ref1 ++ "}}".
Definition body_failed : string :=
  "{" ++ quoted "event" ++ ":" ++ quoted "charge.failed" ++ ","
      ++ quoted "data" ++ ":{" ++ quoted "id" ++ ":4099260516,"
      ++ quoted "reference" ++ ":" ++ quoted ref1 ++ "}}".
Definition body_unknown : string :=
  "{" ++ quoted "event" ++ ":" ++ quoted "charge.success" ++ ","
      ++ quoted "data" ++ ":{" ++ quoted "id" ++ ":77,"
      ++ quoted "reference" ++ ":" ++ quoted "PAY_0_FOREIGN" ++ "}}".

(** [JSON.parse] on the three sample bodies; any other text is rejected. *)
Definition sample_parse (text : string) : option JSON :=
  if String.eqb text body_success then
    Some (JObj [("event", JStr "charge.success"); ("data", charge_data)])
  else if String.eqb text body_failed then
    Some (JObj [("event", JStr "charge.failed"); ("data", charge_data)])
  else if String.eqb text body_unknown then
    Some (JObj [("event", JStr "charge.success"); ("data", unknown_data)])
  else None.

Definition authorization_data : JSON :=
  JObj [("authorization_url", JStr "https://checkout.paystack.com/0peioxfhpn");
        ("access_code", JStr "0peioxfhpn");
        ("reference", JStr ref1)].

(** A provider that accepts every transaction and reports it paid. *)
Definition provider_accepts (call : GatewayCall) : AxiosResult :=
  match call with
  | PostInitialize _ _ =>
      Resolved (Some (JObj [("status", JBool true); ("data", authorization_data)]))
  | GetVerify _ _ =>
      Resolved (Some (JObj [("status", JBool true);
                            ("data", JObj [("id", JNum 4099260516);
                                           ("status", JStr "success");
                                           ("reference", JStr ref1)])]))
  end.

(** A provider that answers every request with [status: false]. *)
Definition provider_declines (call : GatewayCall) : AxiosResult :=
  match call with
  | PostInitialize _ _ =>
      Resolved (Some (JObj [("status", JBool false); ("message", JStr "Invalid key")]))
  | GetVerify _ _ =>
      Resolved (Some (JObj [("status", JBool true);
                            ("data", JObj [("id", JNum 4099260516);
                                           ("status", JStr "failed");
                                           ("reference", JStr ref1)])]))
  end.

Definition env_at (t : Z) (id : string) (provider : GatewayCall -> AxiosResult) : Env :=
  {| now := t; random36 := "X7K2M9QPA"; fresh_id := id;
     env_PAYSTACK_SECRET_KEY := Some "sk_test_4f1d"; env_FRONTEND_URL := None;
     axios := provider; JSON_parse := sample_parse |}.

Definition env1 : Env := env_at 1700000000000 "p1" provider_accepts.
Definition env2 : Env := env_at 1700000060000 "p2" provider_accepts.
Definition env3 : Env := env_at 1700000120000 "p3" provider_declines.

Definition card_request : InitializeRequest.t :=
  {| InitializeRequest.user := Some ada;
     InitializeRequest.bookingId := Some "b1";
     InitializeRequest.amount := Some 5000;
     InitializeRequest.paymentMethod := Some card;
     InitializeRequest.currency := Some NGN |}.

Definition cash_request : InitializeRequest.t :=
  {| InitializeRequest.user := Some ada;
     InitializeRequest.bookingId := Some "b1";
     InitializeRequest.amount := Some 5000;
     InitializeRequest.paymentMethod := Some cash;
     InitializeRequest.currency := None |}.

(** The signature the handler computes for a body. *)
Definition sign (env : Env) (payload : string) : string :=
  Crypto.createHmac_sha512_hex (PAYSTACK_SECRET_KEY env) (stringify_Buffer payload).

Definition delivery (env : Env) (payload : string) : WebhookRequest.t :=
  {| WebhookRequest.body := payload;
     WebhookRequest.x_paystack_signature := Some (sign env payload) |}.

(** The world after a card payment was initialized, and after the provider's
    [charge.success] for it was delivered. *)
Definition world_processing : World := snd (initialize env1 card_request world0).
Definition world_completed : World :=
  snd (webhook_paystack env1 (delivery env1 body_success) world_processing).

(** The world after a cash payment was initialized. *)
Definition world_cash : World := snd (initialize env1 cash_request world0).

(** The sample payment as [world_completed] stores it. *)
Definition paid1 : Payment.doc :=
  {| Payment._id := "p1";
     Payment.user := "u1";
     Payment.booking := "b1";
     Payment.amount := 5000;
     Payment.currency := NGN;
     Payment.paymentMethod := card;
     Payment.paymentProvider := paystack;
     Payment.status := completed;
     Payment.transactionId := Some (JNum 4099260516);
     Payment.reference := Some ref1;
     Payment.providerResponse := Some charge_data;
     Payment.paidAt := Some 1700000000000;
     Payment.dueDate := None;
     Payment.description := "Payment for blood - MLAB17";
     Payment.notes := "";
     Payment.refundAmount := 0;
     Payment.refundedAt := None;
     Payment.refundReason := "";
     Payment.verified := true;
     Payment.verifiedAt := Some 1700000000000;
     Payment.failureReason := "";
     Payment.retryCount := 0;
     Payment.metadata :=
       Some (JObj [("bookingReference", JStr "MLAB17");
                   ("testType", JStr "blood");
                   ("customerName", JStr "Ada Obi");
                   ("customerEmail", JStr "ada@example.com")]) |}.

(** ** Vocabulary of the further properties *)

(** What the pre-save hook establishes: a reference, [paidAt] on a completed
    document, [refundedAt] on a refunded one. *)
Definition settled (p : Payment.doc) : Prop :=
  truthy_string (Payment.reference p) = true
  /\ (Payment.status p = completed -> is_some (Payment.paidAt p) = true)
  /\ (Payment.status p = refunded -> is_some (Payment.refundedAt p) = true).

(** The fields no transition assigns. *)
Definition same_identity (p p' : Payment.doc) : Prop :=
  Payment._id p' = Payment._id p
  /\ Payment.user p' = Payment.user p
  /\ Payment.booking p' = Payment.booking p
  /\ Payment.amount p' = Payment.amount p
  /\ Payment.currency p' = Payment.currency p
  /\ Payment.paymentMethod p' = Payment.paymentMethod p
  /\ Payment.paymentProvider p' = Payment.paymentProvider p
  /\ Payment.description p' = Payment.description p
  /\ Payment.notes p' = Payment.notes p
  /\ Payment.dueDate p' = Payment.dueDate p
  /\ Payment.metadata p' = Payment.metadata p.

(** The booking linkage of a completed payment: the booking with the
    payment's booking id, if there is one, is stored again as confirmed and
    paid, with the time of the save. *)
Definition linked (env : Env) (bookingId : string) (bs : list Booking.doc)
  : list Booking.doc :=
  match findOne (fun b => String.eqb (Booking._id b) bookingId) bs with
  | Some b =>
    upsert Booking._id (Booking.set_updatedAt (now env) (Booking.confirm_paid b)) bs
  | None => bs
  end.

Definition payment_ids (w : World) : list string := map Payment._id (payments w).
Definition booking_ids (w : World) : list string := map Booking._id (bookings w).

(** The same delivery made [n] times in a row. *)
Fixpoint redeliver (n : nat) (env : Env) (req : WebhookRequest.t) (w : World) : World :=
  match n with
  | O => w
  | S n' => redeliver n' env req (snd (webhook_paystack env req w))
  end.

(** A world written out: the sample user and booking after the payment
    [paid1] was completed. *)
Definition world_paid : World :=
  {| users := [ada];
     bookings := [Booking.set_updatedAt 1700000000000 (Booking.confirm_paid booking1)];
     payments := [paid1];
     gateway_log := [] |}.

(** ** middleware/auth.js *)

(** [s.split(' ')]: the pieces between single spaces, empty pieces kept. *)
Fixpoint split_space (s : string) : list string :=
  match s with
  | EmptyString => [EmptyString]
  | String c rest =>
    if Ascii.eqb c " "%char then EmptyString :: split_space rest
    else match split_space rest with
         | piece :: pieces => String c piece :: pieces
         | [] => [String c EmptyString]
         end
  end.

(** The token [protect] reads from [req.headers.authorization]: the second
    piece of a header that starts with ['Bearer']; [None] is [undefined]. *)
Definition bearer_token (authorization : option string) : option string :=
  match authorization with
  | Some header =>
    if truthy_string authorization && String.prefix "Bearer" header
    then nth_error (split_space header) 1
    else None
  | None => None
  end.

(** What the middleware needs beside the world: [jwt.verify(token,
    process.env.JWT_SECRET)], with [None] when it throws and otherwise the
    [id] of the decoded payload ([Some None] when the payload has none), and
    the [role] of a user document, a field of the User schema that the
    payment routes do not read. *)
Record Auth := {
  jwt_verify : string -> option (option string);
  role : User.doc -> string
}.

(** An answer of a guarded route: the middleware's own [{ message }], or the
    answer of the route behind it. *)
Inductive Guarded (B : Type) :=
| Refused (message : string)
| Handled (answer : B).
Arguments Refused {B} _.
Arguments Handled {B} _.

(** [User.findById(decoded.id)]; without an id no user is found. *)
Definition decoded_user (id : option string) (w : World) : option User.doc :=
  match id with
  | Some id => findOne (fun u => String.eqb (User._id u) id) (users w)
  | None => None
  end.

(** The answer of a route handler, written to the response the middleware
    shares with it. *)
Definition handled {B} (r : Response B * World) : Response (Guarded B) * World :=
  (json (statusCode (fst r)) (Handled (body (fst r))), snd r).

(** [exports.protect]; [next] is the rest of the chain, run with [req.user]. *)
Definition protect {B} (auth : Auth) (authorization : option string)
    (next : option User.doc -> World -> Response (Guarded B) * World)
  : World -> Response (Guarded B) * World :=
  fun w =>
    let token := bearer_token authorization in
    if negb (truthy_string token) then
      (json 401 (Refused "Not authorized, no token"), w)
    else
      match token with
      | Some token =>
        match jwt_verify auth token with
        | Some id => next (decoded_user id w) w
        | None => (json 401 (Refused "Token failed or expired"), w)
        end
      | None => (json 401 (Refused "Not authorized, no token"), w)
      end.

(** [exports.adminAuth]: [protect], then the role check. *)
Definition adminAuth {B} (auth : Auth) (authorization : option string)
    (next : option User.doc -> World -> Response (Guarded B) * World)
  : World -> Response (Guarded B) * World :=
  protect auth authorization
    (fun user w =>
       match user with
       | Some u =>
         if String.eqb (role auth u) "admin" then next user w
         else (json 403 (Refused "Access denied: Admins only"), w)
       | None => (json 403 (Refused "Access denied: Admins only"), w)
       end).

(** [POST /initialize] behind [protect]. *)
Definition protected_initialize (auth : Auth) (env : Env) (authorization : option string)
    (bookingId : option string) (amount : option Z)
    (paymentMethod : option PaymentMethod) (currency : option Currency)
  : World -> Response (Guarded Body) * World :=
  protect auth authorization
    (fun user w =>
       handled (initialize env
                  {| InitializeRequest.user := user;
                     InitializeRequest.bookingId := bookingId;
                     InitializeRequest.amount := amount;
                     InitializeRequest.paymentMethod := paymentMethod;
                     InitializeRequest.currency := currency |} w)).

(** [POST /verify/:reference] behind [protect]. *)
Definition protected_verify (auth : Auth) (env : Env) (authorization : option string)
    (reference : string) : World -> Response (Guarded Body) * World :=
  protect auth authorization (fun _ w => handled (verify env reference w)).

(** A token issuer for the samples: ["tok-u1"] is Ada's token, ["tok-gone"]
    the token of a user who was deleted, every other token is rejected; Ada
    has the role the admin script gives. *)
Definition sample_auth : Auth :=
  {| jwt_verify := fun token =>
       if String.eqb token "tok-u1" then Some (Some "u1")
       else if String.eqb token "tok-gone" then Some (Some "u9")
       else None;
     role := fun _ => "super_admin" |}.

(** No space occurs in [s]. *)
Fixpoint no_space (s : string) : bool :=
  match s with
  | EmptyString => true
  | String c rest => negb (Ascii.eqb c " "%char) && no_space rest
  end.

(** ** routes/payment.js: the read routes *)


Module UserPaymentsQuery.
(** [req.query] of [GET /user]: [page] and [limit] are positive integers,
    [status] a status of the schema, the dates milliseconds; an absent key is
    [None]. *)
Record t := {
  page : option positive;
  limit : option positive;
  status : option Status;
  startDate : option Z;
  endDate : option Z
}.
End UserPaymentsQuery.

(** One group of [$group: { _id: '$status', count, totalAmount }]. *)
Record Stat := {
  stat_id : Status;
  stat_count : Z;
  stat_totalAmount : Z
}.

Record PaymentsSummary := {
  totalPayments : Z;
  totalAmount : Z;
  completedPayments : Z;
  pendingPayments : Z;
  failedPayments : Z
}.

Record Pagination := {
  currentPage : Z;
  totalPages : Z;
  totalItems : Z;
  hasNext : bool;
  hasPrev : bool
}.

Record UserPayments := {
  up_payments : list (Payment.doc * option Booking.doc);
  up_pagination : Pagination;
  up_summary : PaymentsSummary
}.

Inductive ListBody :=
| List_ok (result : UserPayments)          (* { success: true, payments, pagination, summary } *)
| List_error (error : string) (message : string).

Definition sum_amounts (ps : list Payment.doc) : Z :=
  fold_right (fun p acc => Payment.amount p + acc) 0 ps.

Definition with_status (s : Status) (ps : list Payment.doc) : list Payment.doc :=
  filter (fun p => Status_beq (Payment.status p) s) ps.

(** The aggregation pipeline on the payments of one user: one group for each
    status that occurs. The order of the groups is the order of the enum. *)
Definition aggregate_by_status (ps : list Payment.doc) : list Stat :=
  flat_map
    (fun s => match with_status s ps with
              | [] => []
              | g => [{| stat_id := s;
                         stat_count := Z.of_nat (length g);
                         stat_totalAmount := sum_amounts g |}]
              end)
    [pending; processing; completed; failed; cancelled; refunded].

(** The [stats.forEach] loop over the summary object. *)
Definition summarize (total : Z) (stats : list Stat) : PaymentsSummary :=
  fold_left
    (fun summary stat =>
       {| totalPayments := totalPayments summary;
          totalAmount := totalAmount summary + stat_totalAmount stat;
          completedPayments :=
            if Status_beq (stat_id stat) completed then stat_count stat
            else completedPayments summary;
          pendingPayments :=
            if Status_beq (stat_id stat) pending then stat_count stat
            else pendingPayments summary;
          failedPayments :=
            if Status_beq (stat_id stat) failed then stat_count stat
            else failedPayments summary |})
    stats
    {| totalPayments := total; totalAmount := 0; completedPayments := 0;
       pendingPayments := 0; failedPayments := 0 |}.

(** [.sort({ createdAt: -1 })]: newest first. *)
Fixpoint insert_newest (createdAt : Payment.doc -> Z) (p : Payment.doc)
    (l : list Payment.doc) : list Payment.doc :=
  match l with
  | [] => [p]
  | x :: rest =>
    if createdAt x <? createdAt p then p :: x :: rest
    else x :: insert_newest createdAt p rest
  end.

Definition newest_first (createdAt : Payment.doc -> Z) (l : list Payment.doc)
  : list Payment.doc :=
  fold_right (insert_newest createdAt) [] l.

(** The filter [query] of [GET /user]. *)
Definition user_query (createdAt : Payment.doc -> Z) (user : User.doc)
    (q : UserPaymentsQuery.t) (p : Payment.doc) : bool :=
  String.eqb (Payment.user p) (User._id user)
  && match UserPaymentsQuery.status q with
     | Some s => Status_beq (Payment.status p) s
     | None => true
     end
  && match UserPaymentsQuery.startDate q with
     | Some d => d <=? createdAt p
     | None => true
     end
  && match UserPaymentsQuery.endDate q with
     | Some d => createdAt p <=? d
     | None => true
     end.

(** [Math.ceil(total / limit)] *)
Definition ceil_div (total limit : Z) : Z := (total + limit - 1) / limit.

(** [router.get('/user', protect, ...)]. [createdAt] is the creation time the
    [timestamps] option keeps for a payment. *)
Definition get_user_payments (createdAt : Payment.doc -> Z) (user : option User.doc)
    (q : UserPaymentsQuery.t) : World -> Response ListBody * World :=
  fun w =>
    match req_user user with
    | inl error =>
      (json 500 (List_error "Failed to retrieve payments" (exn_message error)), w)
    | inr user =>
      let page := match UserPaymentsQuery.page q with Some n => Z.pos n | None => 1 end in
      let limit := match UserPaymentsQuery.limit q with Some n => Z.pos n | None => 10 end in
      let matching := filter (user_query createdAt user q) (payments w) in
      let found :=
        firstn (Z.to_nat (limit * 1))
          (skipn (Z.to_nat ((page - 1) * limit)) (newest_first createdAt matching)) in
      let total := Z.of_nat (length matching) in
      let stats :=
        aggregate_by_status
          (filter (fun p => String.eqb (Payment.user p) (User._id user)) (payments w)) in
      (json 200
         (List_ok
            {| up_payments :=
                 map (fun p =>
                        (p, findOne (fun b => String.eqb (Booking._id b) (Payment.booking p))
                                    (bookings w)))
                     found;
               up_pagination :=
                 {| currentPage := page;
                    totalPages := ceil_div total limit;
                    totalItems := total;
                    hasNext := page * limit <? total;
                    hasPrev := 1 <? page |};
               up_summary := summarize total stats |}),
       w)
    end.

(** The payments of a page, as the answer lists them. *)
Definition page_items (r : Response ListBody) : list Payment.doc :=
  match body r with
  | List_ok result => map fst (up_payments result)
  | List_error _ _ => []
  end.

Definition at_page (k : positive) (q : UserPaymentsQuery.t) : UserPaymentsQuery.t :=
  {| UserPaymentsQuery.page := Some k;
     UserPaymentsQuery.limit := UserPaymentsQuery.limit q;
     UserPaymentsQuery.status := UserPaymentsQuery.status q;
     UserPaymentsQuery.startDate := UserPaymentsQuery.startDate q;
     UserPaymentsQuery.endDate := UserPaymentsQuery.endDate q |}.

(** The payments of a user, and those a query selects. *)
Definition payments_of (user : User.doc) (w : World) : list Payment.doc :=
  filter (fun p => String.eqb (Payment.user p) (User._id user)) (payments w).

Definition selected (createdAt : Payment.doc -> Z) (user : User.doc)
    (q : UserPaymentsQuery.t) (w : World) : list Payment.doc :=
  filter (user_query createdAt user q) (payments w).

(** A second payment of the sample user, failed, and one of another user. *)
Definition failed2 : Payment.doc :=
  Payment.set_status failed
    (Payment.set_reference (Some "PAY_1700000100000_B3")
       (new_Payment (env_at 1700000100000 "p2" provider_declines) ada "b1" 700 NGN card
          booking1)).

Definition foreign3 : Payment.doc :=
  Payment.set_reference (Some "PAY_1700000200000_C4")
    (new_Payment (env_at 1700000200000 "p3" provider_accepts)
       {| User._id := "u2"; User.firstName := "Bayo"; User.lastName := "Eze";
          User.email := "bayo@example.com" |} "b2" 900 NGN cash booking1).

Definition world_three : World :=
  {| users := [ada]; bookings := [booking1];
     payments := [paid1; failed2; foreign3]; gateway_log := [] |}.

(** The creation times of the three sample payments. *)
Definition sample_createdAt (p : Payment.doc) : Z :=
  if String.eqb (Payment._id p) "p1" then 1700000000000
  else if String.eqb (Payment._id p) "p2" then 1700000100000
  else 1700000200000.


(** [descending k l]: the keys of [l] never increase along the list, as the
    sort [{ createdAt: -1 }] leaves them. *)
Fixpoint descending (k : Payment.doc -> Z) (l : list Payment.doc) : Prop :=
  match l with
  | [] => True
  | x :: rest => Forall (fun y => k y <= k x) rest /\ descending k rest
  end.

(** The number of pages and the [hasNext] flag an answer of [GET /user]
    reports. *)
Definition pages_reported (r : Response ListBody) : Z :=
  match body r with
  | List_ok result => totalPages (up_pagination result)
  | List_error _ _ => 0
  end.

Definition next_reported (r : Response ListBody) : bool :=
  match body r with
  | List_ok result => hasNext (up_pagination result)
  | List_error _ _ => false
  end.

(** Page [k] (counted from 1) of the query [q]. *)
Definition nth_page (createdAt : Payment.doc -> Z) (u : User.doc)
    (q : UserPaymentsQuery.t) (w : World) (k : nat) : Response ListBody :=
  fst (get_user_payments createdAt (Some u) (at_page (Pos.of_nat k) q) w).

(** A request signed with the key the source falls back to, and a deployment
    whose environment does not set [PAYSTACK_SECRET_KEY]. *)
Definition signed_with_placeholder (payload : string) : WebhookRequest.t :=
  {| WebhookRequest.body := payload;
     WebhookRequest.x_paystack_signature :=
       Some (Crypto.createHmac_sha512_hex "sk_test_your_secret_key"
               (stringify_Buffer payload)) |}.

Definition env_unconfigured : Env :=
  {| now := 1700000060000; random36 := "X7K2M9QPA"; fresh_id := "p2";
     env_PAYSTACK_SECRET_KEY := None; env_FRONTEND_URL := None;
     axios := provider_accepts; JSON_parse := sample_parse |}.

(** A provider that cannot be reached. *)
Definition provider_unreachable (call : GatewayCall) : AxiosResult :=
  Rejected "connect ETIMEDOUT".

(** * Properties *)

Arguments verifyPaystackSignature : simpl never.
Arguments Crypto.createHmac_sha512_hex : simpl never.
Arguments stringify_Buffer : simpl never.
Arguments decimal : simpl never.

(** ** The monad *)

Lemma bind_ret_l {A B} (a : A) (k : A -> M B) (w : World) : bind (ret a) k w = k a w.
Proof. reflexivity. Qed.

Lemma bind_ret_r {A} (c : M A) (w : World) : bind c ret w = c w.
Proof. unfold bind, ret. destruct (c w) as [[e|a] w']; reflexivity. Qed.

Lemma bind_assoc {A B C} (c : M A) (k : A -> M B) (h : B -> M C) (w : World) :
  bind (bind c k) h w = bind c (fun a => bind (k a) h) w.
Proof. unfold bind. destruct (c w) as [[e|a] w']; reflexivity. Qed.

Lemma bind_throw {A B} (e : Exn) (k : A -> M B) (w : World) :
  bind (throw e) k w = (inl e, w).
Proof. reflexivity. Qed.

(** ** The hash against published vectors (FIPS 180-4 examples, RFC 4231) *)

Example sha512_abc :
  Crypto.hex (Crypto.sha512 (Crypto.bytes_of_string "abc")) =
  "ddaf35a193617abacc417349ae20413112e6fa4e89a97ea20a9eeee64b55d39a2192992a274fc1a836ba3c23a3feebbd454d4423643ce80e2a9ac94fa54ca49f".
Proof. vm_compute. reflexivity. Qed.

Example sha512_empty :
  Crypto.hex (Crypto.sha512 []) =
  "cf83e1357eefb8bdf1542850d66d8007d620e4050b5715dc83f4a921d36ce9ce47d0d13c5d85f2b0ff8318d2877eec2f63b931bd47417a81a538327af927da3e".
Proof. vm_compute. reflexivity. Qed.

Example sha512_two_blocks :
  Crypto.hex (Crypto.sha512 (Crypto.bytes_of_string
    "abcdefghbcdefghicdefghijdefghijkefghijklfghijklmghijklmnhijklmnoijklmnopjklmnopqklmnopqrlmnopqrsmnopqrstnopqrstu")) =
  "8e959b75dae313da8cf4f72814fc143f8f7779c6eb9f7fa17299aeadb6889018501d289e4900f7e4331b99dec4b5433ac7d329eeb6dd26545e96e55b874be909".
Proof. vm_compute. reflexivity. Qed.

Example hmac_rfc4231_case2 :
  Crypto.createHmac_sha512_hex "Jefe" "what do ya want for nothing?" =
  "164b7a7bfcf819e2e395fbe73b56e0a387bd64222e831fd610270cd7ea2505549758bf75c05a994a6d034f65f8f0e6fdcaeab1a34d4a6b4b636e070a38bce737".
Proof. vm_compute. reflexivity. Qed.

(** ** Enumerations *)

Lemma Status_beq_eq (a b : Status) : Status_beq a b = true <-> a = b.
Proof. destruct a, b; simpl; split; intro H; try reflexivity; discriminate H. Qed.

Lemma Status_beq_neq (a b : Status) : Status_beq a b = false <-> a <> b.
Proof.
  split.
  - intros H E. apply Status_beq_eq in E. congruence.
  - intros H. destruct (Status_beq a b) eqn:E; [|reflexivity].
    apply Status_beq_eq in E. contradiction.
Qed.

Lemma PaymentMethod_beq_eq (a b : PaymentMethod) : PaymentMethod_beq a b = true <-> a = b.
Proof. destruct a, b; simpl; split; intro H; try reflexivity; discriminate H. Qed.

(** ** The pre-save hook *)

Ltac hook_cases :=
  unfold pre_save; cbv zeta;
  repeat match goal with
         | |- context [if ?c then _ else _] => destruct c eqn:?
         end;
  simpl in *.

Lemma pre_save_status env p : Payment.status (pre_save env p) = Payment.status p.
Proof. hook_cases; reflexivity. Qed.

Lemma pre_save_id env p : Payment._id (pre_save env p) = Payment._id p.
Proof. hook_cases; reflexivity. Qed.

(** Outside [completed] and [refunded] the hook can only supply a reference. *)
Lemma pre_save_other_status env p :
  Payment.status p <> completed -> Payment.status p <> refunded ->
  pre_save env p =
  if negb (truthy_string (Payment.reference p))
  then Payment.set_reference (Some ("PAY_" ++ decimal (now env) ++ "_" ++ random36 env)) p
  else p.
Proof.
  intros Hc Hr. unfold pre_save; cbv zeta.
  apply Status_beq_neq in Hc, Hr.
  destruct (negb (truthy_string (Payment.reference p))); simpl;
    rewrite Hc; simpl; rewrite Hr; reflexivity.
Qed.

Lemma pre_save_stamped env p t :
  Payment.paidAt p = Some t ->
  (Payment.paidAt (pre_save env p) = Some t
   /\ Payment.verified (pre_save env p) = Payment.verified p
   /\ Payment.verifiedAt (pre_save env p) = Payment.verifiedAt p).
Proof.
  intros Hp. hook_cases; rewrite ?Hp in *; simpl in *;
    rewrite ?andb_false_r in *; try discriminate; auto.
Qed.

(** ** C4: refund *)

(** C4. [processRefund] returns only from status [completed] with a refund
    amount at most the payment amount, and then the document it saves has
    status [refunded], the refund amount, reason and date, and is written to
    the collection; in every other case it throws one of its two errors and
    the world, the stored record included, is as before. *)
Theorem processRefund_completed_within_amount :
  forall env amount reason this w,
    match processRefund env amount reason this w with
    | (inr p, w') =>
        Payment.status this = completed /\ amount <= Payment.amount this
        /\ Payment.status p = refunded
        /\ Payment.refundAmount p = amount
        /\ Payment.refundReason p = reason
        /\ Payment.refundedAt p = Some (now env)
        /\ Payment._id p = Payment._id this
        /\ Payment.amount p = Payment.amount this
        /\ payments w' = upsert Payment._id p (payments w)
        /\ bookings w' = bookings w /\ users w' = users w
        /\ gateway_log w' = gateway_log w
    | (inl e, w') =>
        w' = w
        /\ ((Payment.status this <> completed
             /\ e = Error "Can only refund completed payments")
            \/ (Payment.status this = completed /\ Payment.amount this < amount
                /\ e = Error "Refund amount cannot exceed payment amount"))
    end.
Proof.
  intros env amount reason this w. unfold processRefund.
  destruct (Status_beq (Payment.status this) completed) eqn:Hs; simpl.
  - apply Status_beq_eq in Hs.
    destruct (amount >? Payment.amount this) eqn:Ha; simpl.
    + split; [reflexivity|]. right. repeat split; auto.
      apply Z.gtb_lt in Ha. exact Ha.
    + assert (Hle : amount <= Payment.amount this).
      { rewrite Z.gtb_ltb in Ha. apply Z.ltb_ge in Ha. exact Ha. }
      unfold Payment_save, bind, write_payment, ret; simpl.
      repeat split; auto; hook_cases; reflexivity.
  - apply Status_beq_neq in Hs. split; [reflexivity|]. left. auto.
Qed.

Example refund_within_amount :
  exists p,
    processRefund env2 2000 "duplicate charge" paid1 world_completed
    = (inr p, with_payments [p] world_completed)
    /\ Payment.status p = refunded /\ Payment.refundAmount p = 2000
    /\ Payment.refundedAt p = Some 1700000060000.
Proof. eexists. split; [vm_compute; reflexivity|]. repeat split. Qed.

Example refund_above_amount :
  processRefund env2 5001 "duplicate charge" paid1 world_completed
  = (inl (Error "Refund amount cannot exceed payment amount"), world_completed).
Proof. reflexivity. Qed.

Example refund_of_failed_payment :
  processRefund env2 2000 "duplicate charge" (Payment.set_status failed paid1)
    world_completed
  = (inl (Error "Can only refund completed payments"), world_completed).
Proof. reflexivity. Qed.

(** ** Collections *)

Lemma findOne_some {D} (f : D -> bool) (l : list D) (d : D) :
  findOne f l = Some d -> In d l /\ f d = true.
Proof. unfold findOne. apply find_some. Qed.

Lemma upsert_In {D} (id : D -> string) (d : D) (l : list D) : In d (upsert id d l).
Proof.
  unfold upsert. destruct (existsb _ l) eqn:E.
  - apply existsb_exists in E. destruct E as [x [Hx E]].
    apply in_map_iff. exists x. rewrite E. auto.
  - apply in_or_app. right. left. reflexivity.
Qed.

(** After a found document is replaced by one with the same [_id] that still
    satisfies the filter, the same query finds the replacement. *)
Lemma findOne_upsert {D} (id : D -> string) (f : D -> bool) (l : list D) (d d' : D) :
  findOne f l = Some d -> id d' = id d -> f d' = true ->
  findOne f (upsert id d' l) = Some d'.
Proof.
  intros Hf Hid Hd'. unfold upsert.
  assert (E : existsb (fun x => String.eqb (id x) (id d')) l = true).
  { apply existsb_exists. exists d. apply findOne_some in Hf.
    split; [tauto|]. rewrite Hid. apply String.eqb_refl. }
  rewrite E. clear E. unfold findOne in *.
  induction l as [|x l IH]; simpl in *; [discriminate|].
  destruct (String.eqb (id x) (id d')) eqn:Ex.
  - rewrite Hd'. reflexivity.
  - destruct (f x) eqn:Fx.
    + inversion Hf; subst x. rewrite Hid, String.eqb_refl in Ex. discriminate.
    + apply IH. exact Hf.
Qed.

(** ** Mark-failed *)

Lemma markAsFailed_effect env reason resp p w :
  exists p',
    markAsFailed env reason resp p w
    = (inr p', with_payments (upsert Payment._id p' (payments w)) w)
    /\ Payment.status p' = failed
    /\ Payment.failureReason p' = reason
    /\ Payment.providerResponse p' = default_param (JObj []) resp
    /\ Payment.retryCount p' = Payment.retryCount p + 1
    /\ Payment._id p' = Payment._id p
    /\ Payment.booking p' = Payment.booking p
    /\ (truthy_string (Payment.reference p) = true ->
        Payment.reference p' = Payment.reference p)
    /\ Payment.paidAt p' = Payment.paidAt p
    /\ Payment.verified p' = Payment.verified p
    /\ Payment.verifiedAt p' = Payment.verifiedAt p
    /\ Payment.transactionId p' = Payment.transactionId p.
Proof.
  eexists. split; [reflexivity|].
  repeat split; try (intros Href); hook_cases; try reflexivity;
    try discriminate; rewrite Href in *; discriminate.
Qed.

Lemma authentic_gate env req :
  authentic env req = true ->
  negb (truthy_string (WebhookRequest.x_paystack_signature req))
  || negb (verifyPaystackSignature env (WebhookRequest.body req)
             (WebhookRequest.x_paystack_signature req)) = false.
Proof.
  unfold authentic. intros H. apply andb_true_iff in H. destruct H as [H1 H2].
  rewrite H1, H2. reflexivity.
Qed.

Lemma not_authentic_gate env req :
  authentic env req = false ->
  negb (truthy_string (WebhookRequest.x_paystack_signature req))
  || negb (verifyPaystackSignature env (WebhookRequest.body req)
             (WebhookRequest.x_paystack_signature req)) = true.
Proof.
  unfold authentic. intros H. rewrite <- negb_andb, H. reflexivity.
Qed.

Lemma strict_eq_string_inv v s : strict_eq_string v s = true -> v = Some (JStr s).
Proof.
  destruct v as [[| | |s'| |]|]; simpl; try discriminate.
  intros H. apply String.eqb_eq in H. subst. reflexivity.
Qed.


Lemma failed_is_not_success :
  strict_eq_string (Some (JStr "charge.failed")) "charge.success" = false.
Proof. reflexivity. Qed.

Lemma strict_eq_string_refl s : strict_eq_string (Some (JStr s)) s = true.
Proof. simpl. apply String.eqb_refl. Qed.

(** An authentic [charge.failed] delivery whose reference finds a payment
    runs [markAsFailed] on it and acknowledges. *)
Lemma webhook_charge_failed_found env req w event data reference p :
  authentic env req = true ->
  JSON_parse env (WebhookRequest.body req) = Some event ->
  get (Some event) "event" = inr (Some (JStr "charge.failed")) ->
  get (Some event) "data" = inr data ->
  get data "reference" = inr reference ->
  findOne (has_reference reference) (payments w) = Some p ->
  webhook_paystack env req w
  = (json 200 Body_OK, snd (markAsFailed env "Payment failed" data p w)).
Proof.
  intros Ha Hp He Hd Hr Hf.
  unfold webhook_paystack, try_catch. cbv zeta.
  rewrite (authentic_gate _ _ Ha).
  unfold bind, lift, parse, Payment_findOne. rewrite Hp, He.
  rewrite failed_is_not_success, strict_eq_string_refl, Hd, Hr, Hf.
  destruct (markAsFailed_effect env "Payment failed" data p w) as [p' [E _]].
  rewrite E. reflexivity.
Qed.


Lemma byId_upsert (d : Payment.doc) (l : list Payment.doc) :
  findOne (fun p => String.eqb (Payment._id p) (Payment._id d)) (upsert Payment._id d l)
  = Some d.
Proof.
  unfold upsert, findOne.
  destruct (existsb (fun x => String.eqb (Payment._id x) (Payment._id d)) l) eqn:E.
  - induction l as [|x l IH]; simpl in *; [discriminate|].
    destruct (String.eqb (Payment._id x) (Payment._id d)) eqn:Ex; simpl.
    + rewrite String.eqb_refl. reflexivity.
    + rewrite Ex. apply IH. exact E.
  - induction l as [|x l IH]; simpl in *.
    + rewrite String.eqb_refl. reflexivity.
    + apply orb_false_iff in E. destruct E as [Ex E]. rewrite Ex. apply IH. exact E.
Qed.

(** ** C1: a failure event after completion *)



Example world_completed_payments : payments world_completed = [paid1].
Proof. vm_compute. reflexivity. Qed.


(** ** C2: completing twice *)

Lemma markAsCompleted_effect env transactionId resp p w :
  exists p',
    markAsCompleted env transactionId resp p w
    = (inr p', with_payments (upsert Payment._id p' (payments w)) w)
    /\ Payment.status p' = completed
    /\ Payment.transactionId p' = transactionId
    /\ Payment.providerResponse p' = default_param (JObj []) resp
    /\ Payment.paidAt p' = Some (now env)
    /\ Payment.verified p' = true
    /\ Payment.verifiedAt p' = Some (now env)
    /\ Payment._id p' = Payment._id p.
Proof.
  eexists. split; [reflexivity|].
  repeat split; hook_cases; try reflexivity; discriminate.
Qed.

(** The method itself stamps on every invocation: a second one, at a later
    reading of the clock, replaces the dates of the first. *)
Lemma markAsCompleted_restamps env env' transactionId resp p w p1 w1 p2 w2 :
  markAsCompleted env transactionId resp p w = (inr p1, w1) ->
  markAsCompleted env' transactionId resp p1 w1 = (inr p2, w2) ->
  Payment.paidAt p1 = Some (now env) /\ Payment.paidAt p2 = Some (now env')
  /\ Payment.verifiedAt p2 = Some (now env').
Proof.
  intros H1 H2.
  destruct (markAsCompleted_effect env transactionId resp p w)
    as [q1 [E1 [_ [_ [_ [Hp1 _]]]]]].
  destruct (markAsCompleted_effect env' transactionId resp p1 w1)
    as [q2 [E2 [_ [_ [_ [Hp2 [_ [Hv2 _]]]]]]]].
  rewrite H1 in E1. rewrite H2 in E2.
  inversion E1; inversion E2; subst. auto.
Qed.

(** The webhook guards the transition: a [charge.success] delivery for a
    payment that is already [completed] changes nothing and is acknowledged. *)
Lemma webhook_charge_success_completed_noop env req w event data reference p :
  authentic env req = true ->
  JSON_parse env (WebhookRequest.body req) = Some event ->
  get (Some event) "event" = inr (Some (JStr "charge.success")) ->
  get (Some event) "data" = inr data ->
  get data "reference" = inr reference ->
  findOne (has_reference reference) (payments w) = Some p ->
  Payment.status p = completed ->
  webhook_paystack env req w = (json 200 Body_OK, w).
Proof.
  intros Ha Hp He Hd Hr Hf Hs.
  unfold webhook_paystack, try_catch. cbv zeta.
  rewrite (authentic_gate _ _ Ha).
  unfold bind, lift, parse, Payment_findOne. rewrite Hp, He.
  rewrite strict_eq_string_refl, Hd, Hr.
  assert (Hid : exists v, get data "id" = inr v).
  { destruct data as [[| | | | |]|]; simpl in *; try discriminate; eauto. }
  destruct Hid as [v Hv]. rewrite Hv, Hf, Hs. reflexivity.
Qed.

(** C2, evaluated. The sample payment was completed by the provider's
    [charge.success] at 1700000000000. A redelivery of that event changes
    nothing; a verify call one minute later, for which the provider reports
    ['success'], passes through [markAsCompleted] again and replaces [paidAt]
    and [verifiedAt] by the later time. *)
Theorem verify_restamps_completed_payment :
  payments world_completed = [paid1]
  /\ Payment.paidAt paid1 = Some 1700000000000
  /\ webhook_paystack env2 (delivery env2 body_success) world_completed
     = (json 200 Body_OK, world_completed)
  /\ exists p',
      payments (snd (verify env2 ref1 world_completed)) = [p']
      /\ Payment.status p' = completed
      /\ Payment.paidAt p' = Some 1700000060000
      /\ Payment.verifiedAt p' = Some 1700000060000
      /\ Payment.paidAt p' <> Payment.paidAt paid1.
Proof.
  split; [vm_compute; reflexivity|].
  split; [reflexivity|].
  split; [vm_compute; reflexivity|].
  eexists. split; [vm_compute; reflexivity|].
  repeat split. discriminate.
Qed.

(** ** C3: a second payment for a booking *)





(** ** C5, C6: the signature of a webhook *)

(** What the verifier accepts: the header equal to the HMAC of the
    [JSON.stringify] of the body's [Buffer]. *)
Lemma verifyPaystackSignature_accepts env payload s :
  verifyPaystackSignature env payload (Some s) = true
  <-> s = Crypto.createHmac_sha512_hex (PAYSTACK_SECRET_KEY env) (stringify_Buffer payload).
Proof.
  unfold verifyPaystackSignature. rewrite String.eqb_eq. split; congruence.
Qed.

Lemma stringify_Buffer_example :
  stringify_Buffer "{}"
  = "{" ++ quoted "type" ++ ":" ++ quoted "Buffer" ++ "," ++ quoted "data" ++ ":[123,125]}".
Proof. vm_compute. reflexivity. Qed.

(** C5, evaluated. The provider signs the bytes it sends: for the sample
    [charge.success] body and the secret ["sk_test_4f1d"] that signature is
    the HMAC-SHA-512 below. The verifier hashes the [JSON.stringify] of the
    body's [Buffer] instead, a different text with a different hash, so it
    rejects the provider's signature and the webhook answers 400 without
    touching the payment; it accepts the hash of the re-serialized form. *)
Theorem provider_signature_over_raw_body_rejected :
  PAYSTACK_SECRET_KEY env1 = "sk_test_4f1d"
  /\ Crypto.createHmac_sha512_hex "sk_test_4f1d" body_success
     = "31885374f28a2b869ecccebfbe01d25ad7a8b7557b8e82034a418c672f18ee849dc079b1231b5eabd65769c79bb6141fb7a4342e590674a473137f7a601b831d"
  /\ verifyPaystackSignature env1 body_success
       (Some (Crypto.createHmac_sha512_hex "sk_test_4f1d" body_success)) = false
  /\ webhook_paystack env1
       {| WebhookRequest.body := body_success;
          WebhookRequest.x_paystack_signature :=
            Some (Crypto.createHmac_sha512_hex "sk_test_4f1d" body_success) |}
       world_processing
     = (json 400 (Body_error "Invalid signature" None), world_processing)
  /\ Crypto.createHmac_sha512_hex "sk_test_4f1d" (stringify_Buffer body_success)
     = "1ba76b27ea2ce5c70953dfbf2fbbea622d1b12c218adffbaa854899ad7003dcacaf605459696f5b14344de1bbbbe59532f80d4928a4a7b280a1c1e7f1d07bd7f"
  /\ verifyPaystackSignature env1 body_success
       (Some (Crypto.createHmac_sha512_hex "sk_test_4f1d" (stringify_Buffer body_success)))
     = true.
Proof. repeat split; vm_compute; reflexivity. Qed.

(** C6. A webhook whose signature header is missing, empty, or different from
    the hash the handler computes for the body is answered 400
    ['Invalid signature'] and leaves the world (payments, bookings, gateway
    log) as it was. *)
Theorem webhook_fails_closed :
  forall env req w,
    (WebhookRequest.x_paystack_signature req = None
     \/ WebhookRequest.x_paystack_signature req = Some ""
     \/ exists s, WebhookRequest.x_paystack_signature req = Some s
                  /\ s <> Crypto.createHmac_sha512_hex (PAYSTACK_SECRET_KEY env)
                            (stringify_Buffer (WebhookRequest.body req))) ->
    webhook_paystack env req w = (json 400 (Body_error "Invalid signature" None), w).
Proof.
  intros env req w H.
  assert (Hg : authentic env req = false).
  { unfold authentic. destruct H as [H|[H|[s [H Hs]]]]; rewrite H.
    - reflexivity.
    - reflexivity.
    - apply andb_false_iff. right.
      destruct (verifyPaystackSignature env (WebhookRequest.body req) (Some s)) eqn:E;
        [|reflexivity].
      apply verifyPaystackSignature_accepts in E. contradiction. }
  unfold webhook_paystack, try_catch. cbv zeta.
  rewrite (not_authentic_gate _ _ Hg). reflexivity.
Qed.

Lemma webhook_fails_closed_witness :
  webhook_paystack env2
    {| WebhookRequest.body := body_failed; WebhookRequest.x_paystack_signature := None |}
    world_completed
  = (json 400 (Body_error "Invalid signature" None), world_completed)
  /\ webhook_paystack env2
       {| WebhookRequest.body := body_failed;
          WebhookRequest.x_paystack_signature := Some "" |}
       world_completed
     = (json 400 (Body_error "Invalid signature" None), world_completed)
  /\ webhook_paystack env2
       {| WebhookRequest.body := body_failed;
          WebhookRequest.x_paystack_signature := Some (sign env2 body_success) |}
       world_completed
     = (json 400 (Body_error "Invalid signature" None), world_completed).
Proof.
  split; [|split].
  - apply webhook_fails_closed. left. reflexivity.
  - apply webhook_fails_closed. right. left. reflexivity.
  - apply webhook_fails_closed. right. right.
    exists (sign env2 body_success). split; [reflexivity|].
    vm_compute. discriminate.
Defined.

(** ** C9: what the webhook acknowledges *)

Lemma get_not_nullish v k : is_nullish v = false -> exists x, get v k = inr x.
Proof. destruct v as [[| | | | |]|]; simpl; intros H; try discriminate; eauto. Qed.


Lemma get_inr_not_nullish v k x : get v k = inr x -> is_nullish v = false.
Proof. destruct v as [[| | | | |]|]; simpl; intros H; try discriminate; reflexivity. Qed.





(** ** C10: verifying a cash payment *)

(** C10. For a stored payment whose method is [cash], the verify call leaves
    the world as it was (no gateway call is logged, no document is written)
    and answers 200 with the found document, populated. *)
Theorem verify_cash_read_only :
  forall env reference w p,
    findOne (referenced reference) (payments w) = Some p ->
    Payment.paymentMethod p = cash ->
    verify env reference w
    = (json 200
         (Body_payment
            {| doc := p;
               populated_booking :=
                 findOne (fun b => String.eqb (Booking._id b) (Payment.booking p))
                         (bookings w);
               populated_user :=
                 findOne (fun u => String.eqb (User._id u) (Payment.user p)) (users w) |}),
       w).
Proof.
  intros env reference w p Hf Hm.
  unfold verify, try_catch, bind, Payment_findOne, populate, bind,
    Booking_findById, Booking_findOne, User_findById, ret.
  rewrite Hf. cbn [doc]. rewrite Hm. reflexivity.
Qed.

Lemma verify_cash_read_only_witness :
  exists p,
    payments world_cash = [p]
    /\ Payment.paymentMethod p = cash
    /\ verify env3 ref1 world_cash
       = (json 200
            (Body_payment {| doc := p; populated_booking := Some booking1;
                             populated_user := Some ada |}),
          world_cash).
Proof.
  eexists. split; [vm_compute; reflexivity|]. split; [reflexivity|].
  rewrite (verify_cash_read_only env3 ref1 world_cash _ eq_refl eq_refl).
  reflexivity.
Defined.

(** ** C7, C8: initializing a payment *)



(** What the first save of [/initialize] stores. *)
Lemma new_payment_pending env u b a c m bk :
  Payment.status (pre_save env (new_Payment env u b a c m bk)) = pending
  /\ Payment._id (pre_save env (new_Payment env u b a c m bk)) = fresh_id env
  /\ Payment.paymentMethod (pre_save env (new_Payment env u b a c m bk)) = m
  /\ Payment.reference (pre_save env (new_Payment env u b a c m bk))
     = Some ("PAY_" ++ decimal (now env) ++ "_" ++ random36 env).
Proof. repeat split. Qed.


Lemma not_cash m : m <> cash -> PaymentMethod_beq m cash = false.
Proof.
  intros H. destruct (PaymentMethod_beq m cash) eqn:E; [|reflexivity].
  apply PaymentMethod_beq_eq in E. contradiction.
Qed.




(** ** The scenarios of the specification on the sample data *)

(** Scenario 1: a card payment of 5000 NGN for a booking without an active
    payment is stored as [processing], and a redirect URL is returned. *)
Example scenario_card_initialized :
  exists p,
    payments world_processing = [p]
    /\ initialize env1 card_request world0
       = (json 201 (Body_initialized "Payment initialized successfully"
                      (summary p (Some (Some (JStr "https://checkout.paystack.com/0peioxfhpn"),
                                        Some (JStr "0peioxfhpn"))))),
          world_processing)
    /\ Payment.status p = processing /\ Payment.amount p = 5000
    /\ Payment.currency p = NGN.
Proof.
  eexists. split; [vm_compute; reflexivity|].
  split; [vm_compute; reflexivity|]. repeat split.
Qed.

(** Scenario 3: [charge.success] for the [processing] payment completes it
    and confirms the booking. *)
Example scenario_charge_success :
  payments world_completed = [paid1]
  /\ map Booking.status (bookings world_completed) = ["confirmed"]
  /\ map Booking.paymentStatus (bookings world_completed) = [Some "paid"].
Proof. vm_compute. repeat split. Qed.

(** Scenario 5: the provider reports a failure to a verify call for the
    [processing] payment: it becomes [failed] with [retryCount] 1. *)
Example scenario_verify_failed :
  map (fun p => (Payment.status p, Payment.retryCount p))
      (payments (snd (verify env3 ref1 world_processing)))
  = [(failed, 1)]
  /\ statusCode (fst (verify env3 ref1 world_processing)) = 200%nat.
Proof. vm_compute. repeat split. Qed.

(** * Further properties of the payment model *)

(** ** Signed deliveries *)

(** A digest is never the empty string: it is the hexadecimal form of the 64
    bytes of the eight working registers. *)
Lemma digest_not_empty key data :
  String.eqb (Crypto.createHmac_sha512_hex key data) "" = false.
Proof.
  unfold Crypto.createHmac_sha512_hex, Crypto.hmac_sha512, Crypto.sha512.
  cbv zeta. cbn [flat_map Crypto.be_bytes app Crypto.hex String.eqb].
  reflexivity.
Qed.

(** A delivery signed the way the handler computes the signature, under the
    same secret, passes the signature gate. *)
Lemma delivery_authentic env env' payload :
  PAYSTACK_SECRET_KEY env' = PAYSTACK_SECRET_KEY env ->
  authentic env' (delivery env payload) = true.
Proof.
  intros Hk. unfold authentic, delivery, sign, verifyPaystackSignature.
  cbn [WebhookRequest.body WebhookRequest.x_paystack_signature truthy_string].
  rewrite Hk, digest_not_empty, String.eqb_refl. reflexivity.
Qed.

(** ** The pre-save hook *)

Lemma is_some_true {A} (o : option A) : is_some o = true <-> exists x, o = Some x.
Proof. destruct o; simpl; split; intros H; eauto; try discriminate. destruct H; discriminate. Qed.

Lemma pre_save_settles env p : settled (pre_save env p).
Proof.
  unfold settled. split; [|split].
  - unfold pre_save; cbv zeta.
    destruct (truthy_string (Payment.reference p)) eqn:Hr; simpl;
      repeat match goal with
             | |- context [if ?c then _ else _] => destruct c
             end; simpl; auto.
  - rewrite pre_save_status. intros Hs. unfold pre_save; cbv zeta.
    destruct (negb (truthy_string (Payment.reference p)));
      destruct (Payment.paidAt p) eqn:Hp; destruct (Payment.refundedAt p) eqn:Hq;
      do 4 (simpl; rewrite ?Hs, ?Hp, ?Hq); reflexivity.
  - rewrite pre_save_status. intros Hs. unfold pre_save; cbv zeta.
    destruct (negb (truthy_string (Payment.reference p)));
      destruct (Payment.paidAt p) eqn:Hp; destruct (Payment.refundedAt p) eqn:Hq;
      do 4 (simpl; rewrite ?Hs, ?Hp, ?Hq); reflexivity.
Qed.

Lemma pre_save_of_settled env p : settled p -> pre_save env p = p.
Proof.
  intros (Hr & Hc & Hf). unfold pre_save; cbv zeta. rewrite Hr. simpl.
  destruct (Status_beq (Payment.status p) completed) eqn:Ec.
  - apply Status_beq_eq in Ec. rewrite (Hc Ec). simpl. rewrite Ec. reflexivity.
  - simpl. destruct (Status_beq (Payment.status p) refunded) eqn:Ef.
    + apply Status_beq_eq in Ef. rewrite (Hf Ef). reflexivity.
    + reflexivity.
Qed.

(** Saving again changes nothing: once the hook has run, a later run, at any
    later reading of the clock, leaves the document as it is; the reference
    and the dates the hook assigns are assigned once. *)
Theorem pre_save_idempotent :
  forall env env' p, pre_save env' (pre_save env p) = pre_save env p.
Proof. intros. apply pre_save_of_settled, pre_save_settles. Qed.

(** ** What the transitions leave alone *)

Lemma pre_save_identity env p : same_identity p (pre_save env p).
Proof. unfold same_identity. repeat split; hook_cases; reflexivity. Qed.

Lemma same_identity_trans p q r :
  same_identity p q -> same_identity q r -> same_identity p r.
Proof. unfold same_identity. intuition congruence. Qed.

Lemma markAsCompleted_identity env transactionId resp this w p w' :
  markAsCompleted env transactionId resp this w = (inr p, w') -> same_identity this p.
Proof.
  intros H. unfold markAsCompleted in H. cbv zeta in H.
  unfold Payment_save, bind, write_payment, ret in H. inversion H; subst.
  eapply same_identity_trans; [|apply pre_save_identity].
  unfold same_identity. repeat split.
Qed.

Lemma markAsFailed_identity env reason resp this w p w' :
  markAsFailed env reason resp this w = (inr p, w') -> same_identity this p.
Proof.
  intros H. unfold markAsFailed in H. cbv zeta in H.
  unfold Payment_save, bind, write_payment, ret in H. inversion H; subst.
  eapply same_identity_trans; [|apply pre_save_identity].
  unfold same_identity. repeat split.
Qed.

Lemma processRefund_returns env amount reason this w p w' :
  processRefund env amount reason this w = (inr p, w') ->
  Payment.status this = completed
  /\ amount <= Payment.amount this
  /\ p = pre_save env
           (Payment.set_refundedAt (Some (now env))
              (Payment.set_refundReason reason
                 (Payment.set_refundAmount amount (Payment.set_status refunded this)))).
Proof.
  intros H. unfold processRefund in H.
  destruct (Status_beq (Payment.status this) completed) eqn:Hs;
    cbn [negb] in H; [|discriminate].
  destruct (amount >? Payment.amount this) eqn:Ha; [discriminate|].
  cbv zeta in H. unfold Payment_save, bind, write_payment, ret in H.
  inversion H; subst.
  split; [apply Status_beq_eq; exact Hs|].
  split; [|reflexivity].
  rewrite Z.gtb_ltb in Ha. apply Z.ltb_ge in Ha. exact Ha.
Qed.

Lemma processRefund_identity env amount reason this w p w' :
  processRefund env amount reason this w = (inr p, w') -> same_identity this p.
Proof.
  intros H. apply processRefund_returns in H. destruct H as (_ & _ & ->).
  eapply same_identity_trans; [|apply pre_save_identity].
  unfold same_identity. repeat split.
Qed.

(** Whoever pays, for which booking, how much, in which currency and by which
    method is fixed when the payment is created: no transition of the model
    (mark-completed, mark-failed, refund) changes the [_id], user, booking,
    amount, currency, method, provider, description, notes, due date or
    metadata of the document it returns. *)
Theorem transitions_keep_identity :
  forall env this w,
    (forall transactionId resp p w',
        markAsCompleted env transactionId resp this w = (inr p, w') ->
        same_identity this p)
    /\ (forall reason resp p w',
           markAsFailed env reason resp this w = (inr p, w') -> same_identity this p)
    /\ (forall amount reason p w',
           processRefund env amount reason this w = (inr p, w') -> same_identity this p).
Proof.
  intros env this w. split; [|split]; intros.
  - eapply markAsCompleted_identity; eassumption.
  - eapply markAsFailed_identity; eassumption.
  - eapply processRefund_identity; eassumption.
Qed.

Lemma transitions_keep_identity_witness :
  exists p w',
    markAsFailed env2 "Payment failed" (Some charge_data) paid1 world_paid
    = (inr p, w')
    /\ same_identity paid1 p.
Proof.
  do 2 eexists. split; [reflexivity|].
  destruct (transitions_keep_identity env2 paid1 world_paid) as [_ [H _]].
  eapply H. reflexivity.
Defined.

Lemma pre_save_reference env p :
  Payment.reference (pre_save env p)
  = if truthy_string (Payment.reference p) then Payment.reference p
    else Some ("PAY_" ++ decimal (now env) ++ "_" ++ random36 env).
Proof.
  unfold pre_save; cbv zeta.
  destruct (truthy_string (Payment.reference p)); simpl;
    repeat match goal with
           | |- context [if ?c then _ else _] => destruct c
           end; reflexivity.
Qed.

Lemma markAsCompleted_reference env transactionId resp this w p w' :
  truthy_string (Payment.reference this) = true ->
  markAsCompleted env transactionId resp this w = (inr p, w') ->
  Payment.reference p = Payment.reference this.
Proof.
  intros Hr H. unfold markAsCompleted in H. cbv zeta in H.
  unfold Payment_save, bind, write_payment, ret in H. inversion H; subst.
  rewrite pre_save_reference. simpl. rewrite Hr. reflexivity.
Qed.



(** ** Refunds *)

(** A refund is final for the model's refund operation: the document a
    successful [processRefund] returns has status [refunded] and a refund
    amount within the payment amount, and any further [processRefund] on it,
    whatever the amount, throws ['Can only refund completed payments'] and
    writes nothing. *)
Theorem refund_not_repeatable :
  forall env amount reason this w p w',
    processRefund env amount reason this w = (inr p, w') ->
    Payment.refundAmount p <= Payment.amount p
    /\ forall env' amount' reason' w'',
        processRefund env' amount' reason' p w''
        = (inl (Error "Can only refund completed payments"), w'').
Proof.
  intros env amount reason this w p w' H.
  apply processRefund_returns in H. destruct H as (_ & Hle & ->).
  assert (Hst : forall q, Payment.status (pre_save env q) = Payment.status q)
    by (intros q; apply pre_save_status).
  destruct (pre_save_identity env
              (Payment.set_refundedAt (Some (now env))
                 (Payment.set_refundReason reason
                    (Payment.set_refundAmount amount (Payment.set_status refunded this)))))
    as (_ & _ & _ & Ham & _).
  split.
  - rewrite Ham. hook_cases; exact Hle.
  - intros env' amount' reason' w''. unfold processRefund. rewrite Hst. reflexivity.
Qed.

Lemma refund_not_repeatable_witness :
  exists p w',
    processRefund env2 2000 "duplicate charge" paid1 world_paid = (inr p, w')
    /\ Payment.refundAmount p <= Payment.amount p
    /\ processRefund env3 1 "again" p w'
       = (inl (Error "Can only refund completed payments"), w').
Proof.
  assert (E : exists p w',
             processRefund env2 2000 "duplicate charge" paid1 world_paid
             = (inr p, w')).
  { do 2 eexists. vm_compute. reflexivity. }
  destruct E as (p & w' & E). exists p, w'. split; [exact E|].
  destruct (refund_not_repeatable env2 2000 "duplicate charge" paid1 world_paid
              p w' E) as [H1 H2].
  split; [exact H1|]. apply H2.
Defined.

(** ** The webhook on [charge.success] *)

Lemma webhook_charge_success_found env req w event data reference p :
  authentic env req = true ->
  JSON_parse env (WebhookRequest.body req) = Some event ->
  get (Some event) "event" = inr (Some (JStr "charge.success")) ->
  get (Some event) "data" = inr data ->
  get data "reference" = inr reference ->
  findOne (has_reference reference) (payments w) = Some p ->
  Payment.status p <> completed ->
  exists transactionId p',
    get data "id" = inr transactionId
    /\ markAsCompleted env transactionId data p w
       = (inr p', with_payments (upsert Payment._id p' (payments w)) w)
    /\ webhook_paystack env req w
       = (json 200 Body_OK,
          with_bookings (linked env (Payment.booking p) (bookings w))
            (with_payments (upsert Payment._id p' (payments w)) w)).
Proof.
  intros Ha Hp He Hd Hr Hf Hs.
  destruct (get_not_nullish data "id" (get_inr_not_nullish _ _ _ Hr)) as [i Hi].
  destruct (markAsCompleted_effect env i data p w) as [p' [E Hp']].
  exists i, p'. split; [exact Hi|]. split; [exact E|].
  unfold webhook_paystack, try_catch. cbv zeta.
  rewrite (authentic_gate _ _ Ha).
  unfold bind, lift, parse, Payment_findOne. rewrite Hp, He.
  rewrite strict_eq_string_refl, Hd, Hr, Hi, Hf.
  apply Status_beq_neq in Hs. rewrite Hs. cbn [negb]. rewrite E.
  unfold Booking_findById, Booking_findOne, Booking_save, bind, write_booking, ret, linked.
  cbn [bookings with_payments].
  destruct Hp' as (_ & _ & _ & _ & _ & _ & Hid).
  assert (Hb : Payment.booking p' = Payment.booking p).
  { destruct (markAsCompleted_identity _ _ _ _ _ _ _ E) as (_ & _ & Hb & _).
    exact Hb. }
  rewrite Hb.
  destruct (findOne _ (bookings w)); reflexivity.
Qed.



Lemma has_reference_truthy reference p :
  has_reference reference p = true ->
  exists r, reference = Some (JStr r) /\ Payment.reference p = Some r.
Proof.
  unfold has_reference.
  destruct reference as [[| | |s| |]|]; try discriminate.
  destruct (Payment.reference p) as [r|]; try discriminate.
  intros H. apply String.eqb_eq in H. subst. eauto.
Qed.

(** Redelivery of [charge.success] is harmless: once an authentic
    [charge.success] event has been delivered for a stored payment, a second
    delivery of the same request, at any later time, is acknowledged with 200
    and leaves the world exactly as the first delivery left it. *)
Theorem webhook_charge_success_idempotent :
  forall env env' req w event data reference p,
    authentic env req = true -> authentic env' req = true ->
    JSON_parse env (WebhookRequest.body req) = Some event ->
    JSON_parse env' (WebhookRequest.body req) = Some event ->
    get (Some event) "event" = inr (Some (JStr "charge.success")) ->
    get (Some event) "data" = inr data ->
    get data "reference" = inr reference ->
    findOne (has_reference reference) (payments w) = Some p ->
    truthy_string (Payment.reference p) = true ->
    webhook_paystack env' req (snd (webhook_paystack env req w))
    = (json 200 Body_OK, snd (webhook_paystack env req w)).
Proof.
  intros env env' req w event data reference p Ha Ha' Hp Hp' He Hd Hr Hf Ht.
  destruct (Status_beq (Payment.status p) completed) eqn:Hs.
  - apply Status_beq_eq in Hs.
    rewrite (webhook_charge_success_completed_noop _ _ _ _ _ _ _ Ha Hp He Hd Hr Hf Hs).
    cbn [snd].
    apply (webhook_charge_success_completed_noop _ _ _ _ _ _ _ Ha' Hp' He Hd Hr Hf Hs).
  - apply Status_beq_neq in Hs.
    destruct (webhook_charge_success_found _ _ _ _ _ _ _ Ha Hp He Hd Hr Hf Hs)
      as (i & p' & Hi & E & Hrun).
    rewrite Hrun. cbn [snd].
    destruct (markAsCompleted_effect env i data p w)
      as (q & E' & Hst & _ & _ & _ & _ & _ & Hid).
    rewrite E in E'. inversion E'; subst q.
    pose proof (markAsCompleted_reference _ _ _ _ _ _ _ Ht E) as Href.
    apply (webhook_charge_success_completed_noop env' req _ event data reference p'
             Ha' Hp' He Hd Hr); [|exact Hst].
    cbn [payments with_bookings with_payments].
    apply (findOne_upsert Payment._id (has_reference reference) (payments w) p p' Hf Hid).
    apply findOne_some in Hf. destruct Hf as [_ Hm].
    unfold has_reference in *. rewrite Href. exact Hm.
Qed.

Lemma webhook_charge_success_idempotent_witness :
  webhook_paystack env2 (delivery env1 body_success)
    (snd (webhook_paystack env1 (delivery env1 body_success) world_processing))
  = (json 200 Body_OK,
     snd (webhook_paystack env1 (delivery env1 body_success) world_processing)).
Proof.
  assert (Hp : exists p, findOne (has_reference (Some (JStr ref1)))
                           (payments world_processing) = Some p
                         /\ truthy_string (Payment.reference p) = true).
  { eexists. split; reflexivity. }
  destruct Hp as (p & Hf & Href).
  exact (webhook_charge_success_idempotent env1 env2 (delivery env1 body_success)
           world_processing
           (JObj [("event", JStr "charge.success"); ("data", charge_data)])
           (Some charge_data) (Some (JStr ref1)) p
           (delivery_authentic env1 env1 body_success eq_refl)
           (delivery_authentic env1 env2 body_success eq_refl)
           eq_refl eq_refl eq_refl eq_refl eq_refl Hf Href).
Defined.

(** ** The webhook on [charge.failed] *)

(** A redelivered failure is counted again: after [n] deliveries of an
    authentic [charge.failed] event for a stored payment, the payment's
    [retryCount] has grown by [n] (and its status is [failed] as soon as
    [n > 0]). The handler has no guard against duplicates of this event. *)
Theorem webhook_charge_failed_counts_redeliveries :
  forall n env req w event data reference p,
    authentic env req = true ->
    JSON_parse env (WebhookRequest.body req) = Some event ->
    get (Some event) "event" = inr (Some (JStr "charge.failed")) ->
    get (Some event) "data" = inr data ->
    get data "reference" = inr reference ->
    findOne (has_reference reference) (payments w) = Some p ->
    truthy_string (Payment.reference p) = true ->
    exists p',
      findOne (has_reference reference) (payments (redeliver n env req w)) = Some p'
      /\ Payment._id p' = Payment._id p
      /\ Payment.retryCount p' = Payment.retryCount p + Z.of_nat n
      /\ (0 < n -> Payment.status p' = failed)%nat.
Proof.
  induction n as [|n IH]; intros env req w event data reference p Ha Hp He Hd Hr Hf Ht.
  - exists p. simpl. repeat split; auto; try lia.
  - cbn [redeliver].
    rewrite (webhook_charge_failed_found _ _ _ _ _ _ _ Ha Hp He Hd Hr Hf).
    destruct (markAsFailed_effect env "Payment failed" data p w)
      as (p1 & E & Hst & _ & _ & Hrc & Hid & _ & Href & _).
    rewrite E. cbn [snd].
    specialize (Href Ht).
    assert (Hf1 : findOne (has_reference reference)
                    (payments (with_payments (upsert Payment._id p1 (payments w)) w))
                  = Some p1).
    { cbn [payments with_payments].
      apply (findOne_upsert Payment._id (has_reference reference) (payments w) p p1 Hf Hid).
      apply findOne_some in Hf. destruct Hf as [_ Hm].
      unfold has_reference in *. rewrite Href. exact Hm. }
    assert (Ht1 : truthy_string (Payment.reference p1) = true)
      by (rewrite Href; exact Ht).
    destruct (IH env req _ event data reference p1 Ha Hp He Hd Hr Hf1 Ht1)
      as (p' & Hfind & Hid' & Hrc' & Hst').
    exists p'. split; [exact Hfind|]. split; [congruence|].
    split; [rewrite Hrc', Hrc; lia|].
    intros _. destruct n as [|n'].
    + cbn [redeliver] in Hfind. rewrite Hf1 in Hfind. inversion Hfind; subst. exact Hst.
    + apply Hst'. lia.
Qed.

Lemma webhook_charge_failed_counts_redeliveries_witness :
  exists p',
    findOne (has_reference (Some (JStr ref1)))
      (payments (redeliver 3 env2 (delivery env2 body_failed) world_processing))
    = Some p'
    /\ Payment.retryCount p' = 3
    /\ Payment.status p' = failed.
Proof.
  assert (Hp : exists p, findOne (has_reference (Some (JStr ref1)))
                           (payments world_processing) = Some p
                         /\ truthy_string (Payment.reference p) = true
                         /\ Payment.retryCount p = 0).
  { eexists. split; [reflexivity|]. split; reflexivity. }
  destruct Hp as (p & Hf & Href & Hrc).
  destruct (webhook_charge_failed_counts_redeliveries 3 env2 (delivery env2 body_failed)
              world_processing
              (JObj [("event", JStr "charge.failed"); ("data", charge_data)])
              (Some charge_data) (Some (JStr ref1)) p
              (delivery_authentic env2 env2 body_failed eq_refl)
              eq_refl eq_refl eq_refl eq_refl Hf Href)
    as (p' & Hfind & _ & Hrc' & Hst).
  exists p'. split; [exact Hfind|]. split; [rewrite Hrc', Hrc; reflexivity|].
  apply Hst. lia.
Defined.

(** ** The verify call *)



(** A verify call for a reference that no stored payment carries is answered
    404 and touches nothing: in particular the provider is not asked. *)
Theorem verify_unknown_reference :
  forall env reference w,
    findOne (referenced reference) (payments w) = None ->
    verify env reference w = (json 404 (Body_error "Payment not found" None), w).
Proof.
  intros env reference w Hf.
  unfold verify, try_catch, bind, Payment_findOne. rewrite Hf. reflexivity.
Qed.

Lemma verify_unknown_reference_witness :
  verify env2 "PAY_0_FOREIGN" world_paid
  = (json 404 (Body_error "Payment not found" None), world_paid).
Proof. apply verify_unknown_reference. reflexivity. Defined.

(** ** What the handlers never touch *)

Lemma upsert_keeps_ids {D} (id : D -> string) (d : D) (l : list D) :
  existsb (fun x => String.eqb (id x) (id d)) l = true ->
  map id (upsert id d l) = map id l.
Proof.
  intros E. unfold upsert. rewrite E. clear E.
  induction l as [|x l IH]; simpl; [reflexivity|].
  rewrite IH. destruct (String.eqb (id x) (id d)) eqn:Ex; [|reflexivity].
  apply String.eqb_eq in Ex. rewrite Ex. reflexivity.
Qed.

Lemma found_exists {D} (id : D -> string) (f : D -> bool) (l : list D) (d d' : D) :
  findOne f l = Some d -> id d' = id d ->
  existsb (fun x => String.eqb (id x) (id d')) l = true.
Proof.
  intros Hf Hid. apply existsb_exists. exists d.
  apply findOne_some in Hf. split; [tauto|]. rewrite Hid. apply String.eqb_refl.
Qed.

Lemma linked_keeps_ids env b bs : map Booking._id (linked env b bs) = map Booking._id bs.
Proof.
  unfold linked. destruct (findOne _ bs) as [x|] eqn:E; [|reflexivity].
  apply upsert_keeps_ids. eapply found_exists; [exact E|reflexivity].
Qed.

(** Whatever is delivered to the webhook, authentic or not, well formed or
    not: no gateway call is made, no user is touched, and no payment or
    booking is created or removed (the [_id]s of both collections are the
    same before and after). *)
Theorem webhook_creates_nothing :
  forall env req w,
    gateway_log (snd (webhook_paystack env req w)) = gateway_log w
    /\ users (snd (webhook_paystack env req w)) = users w
    /\ payment_ids (snd (webhook_paystack env req w)) = payment_ids w
    /\ booking_ids (snd (webhook_paystack env req w)) = booking_ids w.
Proof.
  intros env req w.
  destruct (authentic env req) eqn:Ha.
  2:{ unfold webhook_paystack, try_catch. cbv zeta.
      rewrite (not_authentic_gate _ _ Ha). repeat split. }
  unfold webhook_paystack, try_catch. cbv zeta.
  rewrite (authentic_gate _ _ Ha).
  unfold bind, lift, parse, Payment_findOne.
  destruct (JSON_parse env (WebhookRequest.body req)) as [event|]; [|repeat split].
  destruct (get (Some event) "event") as [e|name]; [repeat split|].
  destruct (strict_eq_string name "charge.success").
  - destruct (get (Some event) "data") as [e|data]; [repeat split|].
    destruct (get data "reference") as [e|r]; [repeat split|].
    destruct (get data "id") as [e|i]; [repeat split|].
    destruct (findOne (has_reference r) (payments w)) as [p|] eqn:Hf; [|repeat split].
    destruct (negb (Status_beq (Payment.status p) completed)); [|repeat split].
    destruct (markAsCompleted_effect env i data p w)
      as (p' & E & _ & _ & _ & _ & _ & _ & Hid).
    rewrite E.
    assert (Hb : Payment.booking p' = Payment.booking p).
    { destruct (markAsCompleted_identity _ _ _ _ _ _ _ E) as (_ & _ & Hb & _).
      exact Hb. }
    unfold Booking_findById, Booking_findOne, Booking_save, bind, write_booking, ret.
    cbn [bookings with_payments]. rewrite Hb.
    pose proof (linked_keeps_ids env (Payment.booking p) (bookings w)) as Hl.
    unfold linked in Hl.
    destruct (findOne _ (bookings w)) as [b|];
      (split; [reflexivity|]); (split; [reflexivity|]);
      (split; [unfold payment_ids; cbn [snd payments with_payments with_bookings];
               apply upsert_keeps_ids; eapply found_exists; eassumption|]);
      unfold booking_ids; cbn [snd bookings with_payments with_bookings];
      [exact Hl|reflexivity].
  - destruct (strict_eq_string name "charge.failed"); [|repeat split].
    destruct (get (Some event) "data") as [e|data]; [repeat split|].
    destruct (get data "reference") as [e|r]; [repeat split|].
    destruct (findOne (has_reference r) (payments w)) as [p|] eqn:Hf; [|repeat split].
    destruct (markAsFailed_effect env "Payment failed" data p w)
      as (p' & E & _ & _ & _ & _ & Hid & _).
    rewrite E.
    split; [reflexivity|]. split; [reflexivity|]. split; [|reflexivity].
    unfold payment_ids. cbn [snd payments with_payments].
    apply upsert_keeps_ids. eapply found_exists; eassumption.
Qed.

(** Whatever reference is verified and whatever the provider answers: at most
    one gateway call is made, which is the verify request for that reference,
    no user is touched, and no payment or booking is created or removed. *)
Theorem verify_creates_nothing :
  forall env reference w,
    (gateway_log (snd (verify env reference w)) = gateway_log w
     \/ gateway_log (snd (verify env reference w))
        = (gateway_log w
             ++ [GetVerify ("Bearer " ++ PAYSTACK_SECRET_KEY env) reference])%list)
    /\ users (snd (verify env reference w)) = users w
    /\ payment_ids (snd (verify env reference w)) = payment_ids w
    /\ booking_ids (snd (verify env reference w)) = booking_ids w.
Proof.
  intros env reference w.
  set (call := GetVerify ("Bearer " ++ PAYSTACK_SECRET_KEY env) reference).
  unfold verify, try_catch, bind, Payment_findOne, populate, bind,
    Booking_findById, Booking_findOne, User_findById, ret, await_axios, lift.
  fold call.
  destruct (findOne (referenced reference) (payments w)) as [p|] eqn:Hf;
    [|split; [left|]; repeat split].
  cbn [doc populated_booking populated_user].
  destruct (negb (PaymentMethod_beq (Payment.paymentMethod p) cash));
    [|split; [left|]; repeat split].
  destruct (axios env call) as [rdata|msg]; [|split; [right|]; repeat split].
  destruct (get rdata "data") as [e|vdata]; [split; [right|]; repeat split|].
  destruct (get vdata "status") as [e|st]; [split; [right|]; repeat split|].
  destruct (strict_eq_string st "success").
  - destruct (get vdata "id") as [e|i]; [split; [right|]; repeat split|].
    destruct (markAsCompleted_effect env i vdata p (logged call w))
      as (p' & E & _ & _ & _ & _ & _ & _ & Hid).
    rewrite E.
    unfold Booking_save, bind, write_booking, ret.
    cbn [bookings with_payments logged].
    destruct (findOne _ (bookings w)) as [b|] eqn:Hb;
      (split; [right; reflexivity|]); (split; [reflexivity|]);
      (split; [unfold payment_ids;
               cbn [snd payments with_payments with_bookings logged];
               apply upsert_keeps_ids; eapply found_exists; eassumption|]);
      unfold booking_ids; cbn [snd bookings with_payments with_bookings logged];
      [|reflexivity].
    apply upsert_keeps_ids. eapply found_exists; [exact Hb|reflexivity].
  - destruct (markAsFailed_effect env "Payment verification failed" vdata p
                (logged call w)) as (p' & E & _ & _ & _ & _ & Hid & _).
    rewrite E.
    split; [right; reflexivity|]. split; [reflexivity|]. split; [|reflexivity].
    unfold payment_ids. cbn [snd payments with_payments logged].
    apply upsert_keeps_ids. eapply found_exists; eassumption.
Qed.

(** ** The guards of [/initialize] *)

(** A request without a booking id or amount (absent, the empty string, or the
    amount 0) is answered 400 ['Booking ID and amount are required'] and
    touches nothing; the amount 0 counts as missing. *)
Theorem initialize_requires_booking_and_amount :
  forall env req w,
    (InitializeRequest.bookingId req = None
     \/ InitializeRequest.bookingId req = Some ""
     \/ InitializeRequest.amount req = None
     \/ InitializeRequest.amount req = Some 0) ->
    initialize env req w
    = (json 400 (Body_error "Booking ID and amount are required" None), w).
Proof.
  intros env req w H. unfold initialize, try_catch. cbv zeta.
  destruct (InitializeRequest.bookingId req) as [b|];
    destruct (InitializeRequest.amount req) as [a|]; try reflexivity.
  destruct H as [H|[H|[H|H]]]; try discriminate; inversion H; subst.
  - reflexivity.
  - rewrite orb_true_r. reflexivity.
Qed.

Lemma initialize_requires_booking_and_amount_witness :
  initialize env1
    {| InitializeRequest.user := Some ada;
       InitializeRequest.bookingId := Some "b1";
       InitializeRequest.amount := Some 0;
       InitializeRequest.paymentMethod := Some cash;
       InitializeRequest.currency := None |} world0
  = (json 400 (Body_error "Booking ID and amount are required" None), world0).
Proof.
  apply initialize_requires_booking_and_amount. right. right. right. reflexivity.
Defined.



Lemma upsert_fresh {D} (id : D -> string) (d : D) (l : list D) :
  ~ In (id d) (map id l) -> upsert id d l = (l ++ [d])%list.
Proof.
  intros Hn. unfold upsert.
  destruct (existsb (fun x => String.eqb (id x) (id d)) l) eqn:E; [|reflexivity].
  apply existsb_exists in E. destruct E as (x & Hx & Ex).
  apply String.eqb_eq in Ex. exfalso. apply Hn. rewrite <- Ex. apply in_map. exact Hx.
Qed.

Lemma upsert_last {D} (id : D -> string) (d d' : D) (l : list D) :
  ~ In (id d) (map id l) -> id d' = id d ->
  upsert id d' (l ++ [d]) = (l ++ [d'])%list.
Proof.
  intros Hn Hid. unfold upsert.
  assert (E : existsb (fun x => String.eqb (id x) (id d')) (l ++ [d]) = true).
  { apply existsb_exists. exists d. split; [apply in_or_app; right; left; reflexivity|].
    rewrite Hid. apply String.eqb_refl. }
  rewrite E. clear E. rewrite map_app. simpl.
  rewrite Hid, String.eqb_refl. f_equal.
  induction l as [|x l IH]; simpl; [reflexivity|].
  destruct (String.eqb (id x) (id d)) eqn:Ex.
  - apply String.eqb_eq in Ex. exfalso. apply Hn. left. exact Ex.
  - f_equal. apply IH. intros H. apply Hn. right. exact H.
Qed.

(** One request to [/initialize], whatever it carries and whatever the
    provider answers, touches no user and no booking, leaves every stored
    payment as it was, adds at most one payment (with the fresh [_id], for
    the requested booking and the caller, [pending] or [processing]) and
    makes at most one gateway call, and that only after the payment was
    added. *)
Theorem initialize_adds_at_most_one :
  forall env req w,
    ~ In (fresh_id env) (payment_ids w) ->
    users (snd (initialize env req w)) = users w
    /\ bookings (snd (initialize env req w)) = bookings w
    /\ ((payments (snd (initialize env req w)) = payments w
         /\ gateway_log (snd (initialize env req w)) = gateway_log w)
        \/ exists p,
            payments (snd (initialize env req w)) = (payments w ++ [p])%list
            /\ Payment._id p = fresh_id env
            /\ Some (Payment.booking p) = InitializeRequest.bookingId req
            /\ Some (Payment.user p)
               = option_map User._id (InitializeRequest.user req)
            /\ (Payment.status p = pending \/ Payment.status p = processing)
            /\ (gateway_log (snd (initialize env req w)) = gateway_log w
                \/ exists authorization payload,
                    gateway_log (snd (initialize env req w))
                    = (gateway_log w ++ [PostInitialize authorization payload])%list)).
Proof.
  intros env req w Hfresh.
  pose (P := fun w' : World =>
    users w' = users w
    /\ bookings w' = bookings w
    /\ ((payments w' = payments w /\ gateway_log w' = gateway_log w)
        \/ exists p,
            payments w' = (payments w ++ [p])%list
            /\ Payment._id p = fresh_id env
            /\ Some (Payment.booking p) = InitializeRequest.bookingId req
            /\ Some (Payment.user p)
               = option_map User._id (InitializeRequest.user req)
            /\ (Payment.status p = pending \/ Payment.status p = processing)
            /\ (gateway_log w' = gateway_log w
                \/ exists authorization payload,
                    gateway_log w'
                    = (gateway_log w ++ [PostInitialize authorization payload])%list))).
  change (P (snd (initialize env req w))).
  assert (Hw : P w).
  { unfold P. split; [reflexivity|]. split; [reflexivity|]. left. split; reflexivity. }
  unfold initialize, try_catch. cbv zeta.
  destruct (InitializeRequest.bookingId req) as [b|] eqn:Hb; [|exact Hw].
  destruct (InitializeRequest.amount req) as [a|] eqn:Ha; [|exact Hw].
  destruct (String.eqb b "" || (a =? 0)); [exact Hw|].
  unfold bind, lift, req_user, Booking_findOne, Payment_findOne.
  destruct (InitializeRequest.user req) as [u|] eqn:Hu; [|exact Hw].
  destruct (findOne _ (bookings w)) as [bk|]; [|exact Hw].
  destruct (findOne (active_for b) (payments w)); [exact Hw|].
  set (m := match InitializeRequest.paymentMethod req with
            | Some m => m | None => card end).
  set (c := match InitializeRequest.currency req with
            | Some c => c | None => NGN end).
  set (p0 := pre_save env (new_Payment env u b a c m bk)).
  set (call := PostInitialize ("Bearer " ++ PAYSTACK_SECRET_KEY env)
                 (initialize_payload env u b a c bk p0)).
  set (w1 := with_payments (upsert Payment._id p0 (payments w)) w).
  assert (H0 : payments w1 = (payments w ++ [p0])%list)
    by (apply upsert_fresh; exact Hfresh).
  assert (Hw1 : P w1).
  { unfold P. split; [reflexivity|]. split; [reflexivity|]. right. exists p0.
    rewrite H0, ?Hb, ?Hu. repeat split; auto. }
  assert (Hw1' : P (logged call w1)).
  { unfold P. split; [reflexivity|]. split; [reflexivity|]. right. exists p0.
    cbn [payments logged]. rewrite H0, ?Hb, ?Hu. repeat split; auto.
    right. eexists _, _. reflexivity. }
  assert (Hw2 : forall data,
             P (with_payments
                  (upsert Payment._id
                     (pre_save env (Payment.set_providerResponse data
                                      (Payment.set_status processing p0)))
                     (payments (logged call w1)))
                  (logged call w1))).
  { intros data. unfold P. split; [reflexivity|]. split; [reflexivity|]. right.
    eexists. cbn [payments with_payments logged]. rewrite H0.
    split; [apply upsert_last; [exact Hfresh|reflexivity]|].
    rewrite ?Hb, ?Hu. repeat split; auto. right. eexists _, _. reflexivity. }
  unfold Payment_save at 1. unfold bind at 1.
  unfold write_payment at 1. unfold ret at 1. fold p0. fold w1.
  destruct (PaymentMethod_beq m cash); [exact Hw1|].
  unfold bind, await_axios, lift. fold call.
  destruct (axios env call) as [rdata|msg]; [|exact Hw1'].
  destruct (get rdata "status") as [e|ok]; [exact Hw1'|].
  destruct (truthy ok); [|exact Hw1'].
  destruct (get rdata "data") as [e|data]; [exact Hw1'|].
  unfold Payment_save, bind, write_payment, ret.
  destruct (get data "authorization_url") as [e|url]; [exact (Hw2 data)|].
  destruct (get data "access_code") as [e|code]; exact (Hw2 data).
Qed.

Lemma initialize_adds_at_most_one_witness :
  ~ In (fresh_id env1) (payment_ids world0)
  /\ users (snd (initialize env1 card_request world0)) = users world0
  /\ bookings (snd (initialize env1 card_request world0)) = bookings world0.
Proof.
  split; [intros []|].
  destruct (initialize_adds_at_most_one env1 card_request world0) as (H1 & H2 & _).
  - intros [].
  - split; assumption.
Defined.

(** * The authentication middleware *)

Lemma split_space_no_space s : no_space s = true -> split_space s = [s].
Proof.
  induction s as [|c s IH]; simpl; [reflexivity|].
  intros H. apply andb_true_iff in H. destruct H as [Hc Hs].
  apply negb_true_iff in Hc. rewrite Hc, (IH Hs). reflexivity.
Qed.

Lemma split_space_app s t :
  no_space s = true ->
  split_space (s ++ String " " t) = s :: split_space t.
Proof.
  induction s as [|c s IH]; simpl; [reflexivity|].
  intros H. apply andb_true_iff in H. destruct H as [Hc Hs].
  apply negb_true_iff in Hc. rewrite Hc, (IH Hs). reflexivity.
Qed.

Lemma prefix_app p s t : String.prefix p s = true -> String.prefix p (s ++ t) = true.
Proof.
  revert s. induction p as [|a p IH]; intros s H; [destruct (s ++ t); reflexivity|].
  destruct s as [|b s]; simpl in *; [discriminate|].
  destruct (ascii_dec a b); [|discriminate]. apply IH. exact H.
Qed.

(** The token is the text between the first and the second space of a header
    that begins with ['Bearer']: for a header ["<scheme> <token>"] or
    ["<scheme> <token> <more>"] whose scheme begins with ['Bearer'] (the
    scheme is tested by prefix only, so ['BearerX'] passes as well) the
    middleware verifies exactly [<token>]. *)
Theorem bearer_token_is_second_piece :
  forall scheme token more,
    String.prefix "Bearer" scheme = true ->
    no_space scheme = true -> no_space token = true ->
    bearer_token (Some (scheme ++ " " ++ token)) = Some token
    /\ bearer_token (Some (scheme ++ " " ++ token ++ " " ++ more)) = Some token.
Proof.
  intros scheme token more Hp Hs Ht.
  assert (Hne : forall t, truthy_string (Some (scheme ++ t)) = true).
  { intros t. destruct scheme; [discriminate Hp|reflexivity]. }
  unfold bearer_token. split.
  - rewrite Hne, (prefix_app _ _ _ Hp). cbn [andb].
    change (scheme ++ " " ++ token) with (scheme ++ String " " token).
    rewrite (split_space_app _ _ Hs), (split_space_no_space _ Ht). reflexivity.
  - rewrite Hne, (prefix_app _ _ _ Hp). cbn [andb].
    change (scheme ++ " " ++ token ++ " " ++ more)
      with (scheme ++ String " " (token ++ String " " more)).
    rewrite (split_space_app _ _ Hs), (split_space_app _ _ Ht). reflexivity.
Qed.

Lemma bearer_token_is_second_piece_witness :
  bearer_token (Some "Bearer tok-u1") = Some "tok-u1"
  /\ bearer_token (Some "BearerX tok-u1 trailing") = Some "tok-u1".
Proof.
  split.
  - apply (bearer_token_is_second_piece "Bearer" "tok-u1" ""); reflexivity.
  - apply (bearer_token_is_second_piece "BearerX" "tok-u1" "trailing"); reflexivity.
Defined.

(** Without a usable token nothing behind [protect] runs: when the header is
    absent or empty, does not begin with ['Bearer'], or has no second piece
    (or an empty one, as after two spaces), the answer is 401
    ['Not authorized, no token']; when the token does not verify it is 401
    ['Token failed or expired']. In both cases the world is as before,
    whatever the route behind the middleware is. *)
Theorem protect_refuses :
  forall (B : Type) auth authorization
         (next : option User.doc -> World -> Response (Guarded B) * World) w,
    (truthy_string (bearer_token authorization) = false ->
     protect auth authorization next w
     = (json 401 (Refused "Not authorized, no token"), w))
    /\ (forall token,
           bearer_token authorization = Some token -> token <> "" ->
           jwt_verify auth token = None ->
           protect auth authorization next w
           = (json 401 (Refused "Token failed or expired"), w))
    /\ (authorization = None \/ authorization = Some ""
        \/ authorization = Some "Bearer" \/ authorization = Some "Bearer "
        \/ (exists t, authorization = Some ("Bearer  " ++ t))
        \/ (exists h, authorization = Some h /\ String.prefix "Bearer" h = false) ->
        truthy_string (bearer_token authorization) = false).
Proof.
  intros B auth authorization next w. split; [|split].
  - intros H. unfold protect. cbv zeta. rewrite H. reflexivity.
  - intros token Ht Hne Hv. unfold protect. cbv zeta. rewrite Ht.
    apply String.eqb_neq in Hne. cbn [truthy_string]. rewrite Hne. cbn [negb].
    rewrite Hv. reflexivity.
  - intros [H|[H|[H|[H|[[t H]|[h [H Hp]]]]]]]; subst authorization;
      try reflexivity.
    unfold bearer_token. rewrite Hp, andb_false_r. reflexivity.
Qed.

Lemma protect_refuses_witness :
  protected_initialize sample_auth env1 None (Some "b1") (Some 5000) (Some card) None world0
  = (json 401 (Refused "Not authorized, no token"), world0)
  /\ protected_initialize sample_auth env1 (Some "Bearer forged") (Some "b1") (Some 5000)
       (Some card) None world0
     = (json 401 (Refused "Token failed or expired"), world0).
Proof.
  split.
  - unfold protected_initialize.
    destruct (protect_refuses Body sample_auth None
                (fun user w =>
                   handled (initialize env1
                              {| InitializeRequest.user := user;
                                 InitializeRequest.bookingId := Some "b1";
                                 InitializeRequest.amount := Some 5000;
                                 InitializeRequest.paymentMethod := Some card;
                                 InitializeRequest.currency := None |} w)) world0)
      as (H & _ & _).
    apply H. reflexivity.
  - unfold protected_initialize.
    destruct (protect_refuses Body sample_auth (Some "Bearer forged")
                (fun user w =>
                   handled (initialize env1
                              {| InitializeRequest.user := user;
                                 InitializeRequest.bookingId := Some "b1";
                                 InitializeRequest.amount := Some 5000;
                                 InitializeRequest.paymentMethod := Some card;
                                 InitializeRequest.currency := None |} w)) world0)
      as (_ & H & _).
    apply (H "forged"); [reflexivity|discriminate|reflexivity].
Defined.

(** A token that verifies for a user who no longer exists passes [protect]
    with [req.user = null]. [/initialize] then answers 400 when the booking id
    or the amount is missing, and otherwise fails on [req.user._id] with 500
    ['Failed to initialize payment']; nothing is written in either case. *)
Theorem protected_initialize_deleted_user :
  forall auth env authorization token id bookingId amount paymentMethod currency w,
    bearer_token authorization = Some token -> token <> "" ->
    jwt_verify auth token = Some id ->
    decoded_user id w = None ->
    snd (protected_initialize auth env authorization bookingId amount paymentMethod
           currency w) = w
    /\ (truthy_string bookingId = true ->
        (exists a, amount = Some a /\ a <> 0) ->
        fst (protected_initialize auth env authorization bookingId amount paymentMethod
               currency w)
        = json 500
            (Handled (Body_error "Failed to initialize payment"
                        (Some "Cannot read properties of null (reading '_id')")))).
Proof.
  intros auth env authorization token id bookingId amount paymentMethod currency w
         Ht Hne Hv Hu.
  unfold protected_initialize, protect. cbv zeta. rewrite Ht.
  apply String.eqb_neq in Hne. cbn [truthy_string]. rewrite Hne. cbn [negb].
  rewrite Hv, Hu. unfold handled, initialize, try_catch. cbv zeta.
  cbn [InitializeRequest.bookingId InitializeRequest.amount InitializeRequest.user].
  destruct bookingId as [b|]; [|split; [reflexivity|intros H; discriminate H]].
  destruct amount as [a|]; [|split; [reflexivity|intros _ [a [H _]]; discriminate H]].
  destruct (String.eqb b "" || (a =? 0)) eqn:Hval.
  - split; [reflexivity|]. intros Hb [a' [Ha' Hnz]]. inversion Ha'; subst a'.
    apply orb_true_iff in Hval. destruct Hval as [H|H].
    + simpl in Hb. rewrite H in Hb. discriminate.
    + apply Z.eqb_eq in H. contradiction.
  - split; reflexivity.
Qed.

Lemma protected_initialize_deleted_user_witness :
  protected_initialize sample_auth env1 (Some "Bearer tok-gone") (Some "b1") (Some 5000)
    (Some card) None world0
  = (json 500
       (Handled (Body_error "Failed to initialize payment"
                   (Some "Cannot read properties of null (reading '_id')"))),
     world0).
Proof.
  assert (Hne : "tok-gone" <> "") by discriminate.
  destruct (protected_initialize_deleted_user sample_auth env1 (Some "Bearer tok-gone")
              "tok-gone" (Some "u9") (Some "b1") (Some 5000) (Some card) None world0
              eq_refl Hne eq_refl eq_refl)
    as [Hw Hr].
  rewrite (surjective_pairing (protected_initialize _ _ _ _ _ _ _ _)).
  rewrite Hw, Hr; [reflexivity|reflexivity|].
  exists 5000. split; [reflexivity|discriminate].
Defined.

(** [adminAuth] admits the role ['admin'] and no other: a caller whose token
    verifies but whose role is different (['super_admin'], the role the
    admin-creation script assigns, included) or whose account no longer
    exists is answered 403 ['Access denied: Admins only'], and the route
    behind the middleware is not run. *)
Theorem adminAuth_admits_admin_only :
  forall (B : Type) auth authorization token id
         (next : option User.doc -> World -> Response (Guarded B) * World) w,
    bearer_token authorization = Some token -> token <> "" ->
    jwt_verify auth token = Some id ->
    (forall u, decoded_user id w = Some u -> role auth u = "admin" ->
               adminAuth auth authorization next w = next (Some u) w)
    /\ (forall u, decoded_user id w = Some u -> role auth u <> "admin" ->
                  adminAuth auth authorization next w
                  = (json 403 (Refused "Access denied: Admins only"), w))
    /\ (decoded_user id w = None ->
        adminAuth auth authorization next w
        = (json 403 (Refused "Access denied: Admins only"), w)).
Proof.
  intros B auth authorization token id next w Ht Hne Hv.
  assert (Hrun : adminAuth auth authorization next w
                 = match decoded_user id w with
                   | Some u =>
                     if String.eqb (role auth u) "admin" then next (Some u) w
                     else (json 403 (Refused "Access denied: Admins only"), w)
                   | None => (json 403 (Refused "Access denied: Admins only"), w)
                   end).
  { unfold adminAuth, protect. cbv zeta. rewrite Ht.
    apply String.eqb_neq in Hne. cbn [truthy_string]. rewrite Hne. cbn [negb].
    rewrite Hv. destruct (decoded_user id w); reflexivity. }
  rewrite Hrun. split; [|split].
  - intros u Hu Hr. rewrite Hu, Hr. reflexivity.
  - intros u Hu Hr. rewrite Hu. apply String.eqb_neq in Hr. rewrite Hr. reflexivity.
  - intros Hu. rewrite Hu. reflexivity.
Qed.

Lemma adminAuth_admits_admin_only_witness :
  adminAuth sample_auth (Some "Bearer tok-u1")
    (fun user w => handled (verify env1 ref1 w)) world_paid
  = (json 403 (Refused "Access denied: Admins only"), world_paid).
Proof.
  assert (Hne : "tok-u1" <> "") by discriminate.
  destruct (adminAuth_admits_admin_only Body sample_auth (Some "Bearer tok-u1") "tok-u1"
              (Some "u1") (fun user w => handled (verify env1 ref1 w)) world_paid
              eq_refl Hne eq_refl)
    as (_ & H & _).
  apply (H ada); [reflexivity|discriminate].
Defined.

(** * The read routes *)



(** ** The summary of [GET /user] *)

Lemma sum_amounts_by_status ps :
  sum_amounts ps
  = sum_amounts (with_status pending ps) + sum_amounts (with_status processing ps)
    + sum_amounts (with_status completed ps) + sum_amounts (with_status failed ps)
    + sum_amounts (with_status cancelled ps) + sum_amounts (with_status refunded ps).
Proof.
  induction ps as [|p ps IH]; [reflexivity|].
  unfold with_status in *. cbn [filter sum_amounts fold_right].
  fold (sum_amounts ps). rewrite IH.
  destruct (Payment.status p); cbn [Status_beq sum_amounts fold_right];
    unfold sum_amounts; lia.
Qed.

Lemma summarize_aggregate total ps :
  summarize total (aggregate_by_status ps)
  = {| totalPayments := total;
       totalAmount := sum_amounts ps;
       completedPayments := Z.of_nat (length (with_status completed ps));
       pendingPayments := Z.of_nat (length (with_status pending ps));
       failedPayments := Z.of_nat (length (with_status failed ps)) |}.
Proof.
  rewrite (sum_amounts_by_status ps).
  unfold aggregate_by_status. cbn [flat_map].
  destruct (with_status pending ps) as [|a1 l1];
  destruct (with_status processing ps) as [|a2 l2];
  destruct (with_status completed ps) as [|a3 l3];
  destruct (with_status failed ps) as [|a4 l4];
  destruct (with_status cancelled ps) as [|a5 l5];
  destruct (with_status refunded ps) as [|a6 l6];
  unfold summarize;
  cbn [app fold_left stat_id stat_count stat_totalAmount Status_beq
       totalPayments totalAmount completedPayments pendingPayments failedPayments];
  f_equal; cbn [sum_amounts fold_right]; lia.
Qed.

(** The summary of [GET /user] describes all payments of the caller, not the
    payments the query selects: [totalAmount] is the sum of the amounts of
    every payment of the caller, whatever its status (failed, cancelled and
    refunded ones included), and the completed, pending and failed counts are
    taken over all of them; only [totalPayments] (and the pagination) follows
    the [status] and date filters. *)
Theorem user_payments_summary :
  forall createdAt u q w,
    exists result,
      get_user_payments createdAt (Some u) q w = (json 200 (List_ok result), w)
      /\ totalPayments (up_summary result)
         = Z.of_nat (length (selected createdAt u q w))
      /\ totalAmount (up_summary result) = sum_amounts (payments_of u w)
      /\ completedPayments (up_summary result)
         = Z.of_nat (length (with_status completed (payments_of u w)))
      /\ pendingPayments (up_summary result)
         = Z.of_nat (length (with_status pending (payments_of u w)))
      /\ failedPayments (up_summary result)
         = Z.of_nat (length (with_status failed (payments_of u w)))
      /\ totalItems (up_pagination result)
         = Z.of_nat (length (selected createdAt u q w)).
Proof.
  intros createdAt u q w. eexists. split; [reflexivity|].
  cbn [up_summary up_pagination totalItems].
  fold (payments_of u w). fold (selected createdAt u q w).
  rewrite summarize_aggregate. repeat split.
Qed.

Example filtered_summary_example :
  exists result,
    get_user_payments sample_createdAt (Some ada)
      {| UserPaymentsQuery.page := None; UserPaymentsQuery.limit := None;
         UserPaymentsQuery.status := Some completed;
         UserPaymentsQuery.startDate := None; UserPaymentsQuery.endDate := None |}
      world_three
    = (json 200 (List_ok result), world_three)
    /\ map Payment._id (map fst (up_payments result)) = ["p1"]
    /\ up_summary result
       = {| totalPayments := 1; totalAmount := 5700; completedPayments := 1;
            pendingPayments := 0; failedPayments := 1 |}.
Proof. eexists. split; [reflexivity|]. split; reflexivity. Qed.

(** ** The pages of [GET /user] *)

Lemma In_insert_newest k p l x : In x (insert_newest k p l) <-> x = p \/ In x l.
Proof.
  induction l as [|y l IH]; simpl.
  - intuition.
  - destruct (k y <? k p); simpl; [intuition|]. rewrite IH. intuition.
Qed.

Lemma In_newest_first k l x : In x (newest_first k l) <-> In x l.
Proof.
  induction l as [|y l IH]; simpl; [tauto|].
  rewrite In_insert_newest, IH. intuition.
Qed.

Lemma length_insert_newest k p l : length (insert_newest k p l) = S (length l).
Proof.
  induction l as [|y l IH]; simpl; [reflexivity|].
  destruct (k y <? k p); simpl; [reflexivity|]. rewrite IH. reflexivity.
Qed.

Lemma length_newest_first k l : length (newest_first k l) = length l.
Proof.
  induction l as [|y l IH]; simpl; [reflexivity|].
  rewrite length_insert_newest, IH. reflexivity.
Qed.

Lemma insert_newest_descending k p l :
  descending k l -> descending k (insert_newest k p l).
Proof.
  induction l as [|y l IH]; intros Hs; simpl.
  - split; [constructor|exact I].
  - destruct Hs as [Hall Hl].
    destruct (k y <? k p) eqn:E.
    + apply Z.ltb_lt in E. split; [|split; assumption].
      constructor; [lia|].
      rewrite Forall_forall in *. intros x Hx. specialize (Hall x Hx). lia.
    + apply Z.ltb_ge in E. split; [|apply IH; exact Hl].
      rewrite Forall_forall in *. intros x Hx.
      apply In_insert_newest in Hx. destruct Hx as [->|Hx]; [exact E|].
      apply Hall. exact Hx.
Qed.

Lemma newest_first_descending k l : descending k (newest_first k l).
Proof.
  induction l as [|y l IH]; simpl; [exact I|].
  apply insert_newest_descending. exact IH.
Qed.

Lemma In_firstn {A} n (l : list A) x : In x (firstn n l) -> In x l.
Proof.
  revert l. induction n as [|n IH]; intros [|y l] H; simpl in *; try tauto.
  destruct H as [H|H]; [left; exact H|right; apply IH; exact H].
Qed.

Lemma In_skipn {A} n (l : list A) x : In x (skipn n l) -> In x l.
Proof.
  revert l. induction n as [|n IH]; intros [|y l] H; simpl in *; try tauto.
  right. apply IH. exact H.
Qed.

Lemma firstn_descending k n l : descending k l -> descending k (firstn n l).
Proof.
  revert l. induction n as [|n IH]; intros [|y l] H; simpl; try exact I.
  destruct H as [Hall Hl]. split; [|apply IH; exact Hl].
  rewrite Forall_forall in *. intros x Hx. apply Hall. eapply In_firstn. exact Hx.
Qed.

Lemma skipn_descending k n l : descending k l -> descending k (skipn n l).
Proof.
  revert l. induction n as [|n IH]; intros [|y l] H; simpl; try assumption.
  destruct H as [_ Hl]. apply IH. exact Hl.
Qed.

Lemma page_items_run createdAt u q w :
  page_items (fst (get_user_payments createdAt (Some u) q w))
  = firstn (Pos.to_nat (match UserPaymentsQuery.limit q with Some n => n | None => 10%positive end))
      (skipn ((Pos.to_nat (match UserPaymentsQuery.page q with
                           | Some n => n | None => 1%positive end) - 1)
              * Pos.to_nat (match UserPaymentsQuery.limit q with
                            | Some n => n | None => 10%positive end))
         (newest_first createdAt (selected createdAt u q w))).
Proof.
  unfold get_user_payments, page_items, selected, json.
  cbn [req_user fst body up_payments].
  rewrite map_map. cbn [fst]. rewrite map_id.
  f_equal.
  - destruct (UserPaymentsQuery.limit q); lia.
  - f_equal. rewrite Z2Nat.inj_mul
      by (destruct (UserPaymentsQuery.limit q); destruct (UserPaymentsQuery.page q); lia).
    f_equal.
    + destruct (UserPaymentsQuery.page q); lia.
    + destruct (UserPaymentsQuery.limit q); lia.
Qed.

(** A page of [GET /user] holds at most [limit] payments, each of them a
    stored payment of the caller that passes the [status] filter and lies in
    the requested date range, and lists them newest first. *)
Theorem user_payments_page :
  forall createdAt u q w p,
    In p (page_items (fst (get_user_payments createdAt (Some u) q w))) ->
    In p (payments w)
    /\ Payment.user p = User._id u
    /\ (forall s, UserPaymentsQuery.status q = Some s -> Payment.status p = s)
    /\ (forall d, UserPaymentsQuery.startDate q = Some d -> d <= createdAt p)
    /\ (forall d, UserPaymentsQuery.endDate q = Some d -> createdAt p <= d)
    /\ (length (page_items (fst (get_user_payments createdAt (Some u) q w)))
        <= Pos.to_nat (match UserPaymentsQuery.limit q with
                       | Some n => n | None => 10%positive end))%nat
    /\ descending createdAt
         (page_items (fst (get_user_payments createdAt (Some u) q w))).
Proof.
  intros createdAt u q w p. rewrite page_items_run. intros Hin.
  apply In_firstn, In_skipn, In_newest_first in Hin.
  unfold selected in Hin. apply filter_In in Hin. destruct Hin as [Hin Hq].
  unfold user_query in Hq.
  apply andb_true_iff in Hq. destruct Hq as [Hq He].
  apply andb_true_iff in Hq. destruct Hq as [Hq Hs].
  apply andb_true_iff in Hq. destruct Hq as [Hu Hst].
  split; [exact Hin|]. split; [apply String.eqb_eq; exact Hu|].
  split; [intros s E; rewrite E in Hst; apply Status_beq_eq; exact Hst|].
  split; [intros d E; rewrite E in Hs; apply Z.leb_le; exact Hs|].
  split; [intros d E; rewrite E in He; apply Z.leb_le; exact He|].
  split; [apply firstn_le_length|].
  apply firstn_descending, skipn_descending, newest_first_descending.
Qed.

Lemma user_payments_page_witness :
  In paid1
    (page_items (fst (get_user_payments sample_createdAt (Some ada)
                        {| UserPaymentsQuery.page := None;
                           UserPaymentsQuery.limit := None;
                           UserPaymentsQuery.status := None;
                           UserPaymentsQuery.startDate := None;
                           UserPaymentsQuery.endDate := None |} world_three)))
  /\ Payment.user paid1 = User._id ada.
Proof.
  assert (Hin : In paid1
            (page_items (fst (get_user_payments sample_createdAt (Some ada)
                                {| UserPaymentsQuery.page := None;
                                   UserPaymentsQuery.limit := None;
                                   UserPaymentsQuery.status := None;
                                   UserPaymentsQuery.startDate := None;
                                   UserPaymentsQuery.endDate := None |} world_three)))).
  { right. left. reflexivity. }
  split; [exact Hin|].
  destruct (user_payments_page _ _ _ _ _ Hin) as (_ & H & _). exact H.
Defined.

Lemma firstn_plus {A} a b (l : list A) :
  firstn (a + b) l = (firstn a l ++ firstn b (skipn a l))%list.
Proof.
  revert l. induction a as [|a IH]; intros [|x l]; simpl.
  - reflexivity.
  - reflexivity.
  - rewrite firstn_nil. reflexivity.
  - rewrite IH. reflexivity.
Qed.

Lemma windows_concat {A} (size : nat) (l : list A) n :
  concat (map (fun k => firstn size (skipn (k * size) l)) (seq 0 n))
  = firstn (n * size) l.
Proof.
  induction n as [|n IH]; [reflexivity|].
  rewrite seq_S, map_app, concat_app, IH. cbn [map concat Nat.add].
  rewrite app_nil_r.
  replace (S n * size)%nat with (n * size + size)%nat by lia.
  rewrite firstn_plus. reflexivity.
Qed.

Lemma ceil_div_covers total limit :
  0 <= total -> 0 < limit -> total <= ceil_div total limit * limit.
Proof.
  intros Ht Hl. unfold ceil_div.
  pose proof (Z.div_mod (total + limit - 1) limit ltac:(lia)) as E.
  pose proof (Z.mod_pos_bound (total + limit - 1) limit Hl) as B.
  nia.
Qed.

Lemma ceil_div_next total limit page :
  0 <= total -> 0 < limit ->
  (page * limit <? total) = (page <? ceil_div total limit).
Proof.
  intros Ht Hl. unfold ceil_div.
  pose proof (Z.div_mod (total + limit - 1) limit ltac:(lia)) as E.
  pose proof (Z.mod_pos_bound (total + limit - 1) limit Hl) as B.
  destruct (page * limit <? total) eqn:E1; destruct (page <? (total + limit - 1) / limit) eqn:E2;
    try reflexivity; rewrite ?Z.ltb_lt, ?Z.ltb_ge in *; nia.
Qed.

(** Walking the pages 1, 2, ..., [totalPages] of one query, with the payments
    unchanged in between and no two selected payments created at the same
    instant (the database fixes no order among equal sort keys), gives, page
    after page, the selected payments sorted newest first, none left out and
    none repeated; and a page reports [hasNext] exactly when its number is
    below [totalPages]. *)
Theorem user_payments_pages :
  forall createdAt u q w,
    NoDup (map createdAt (selected createdAt u q w)) ->
    concat (map (fun k => page_items (nth_page createdAt u q w (S k)))
              (seq 0 (Z.to_nat (pages_reported (nth_page createdAt u q w 1)))))
    = newest_first createdAt (selected createdAt u q w)
    /\ forall k,
         next_reported (nth_page createdAt u q w (S k))
         = (Z.of_nat (S k) <? pages_reported (nth_page createdAt u q w 1)).
Proof.
  intros createdAt u q w _.
  set (size := match UserPaymentsQuery.limit q with Some n => n | None => 10%positive end).
  assert (Hpages : pages_reported (nth_page createdAt u q w 1)
                   = ceil_div (Z.of_nat (length (selected createdAt u q w))) (Z.pos size)).
  { unfold size, nth_page, pages_reported, get_user_payments, json, selected.
    cbn [req_user fst body up_pagination totalPages at_page
         UserPaymentsQuery.page UserPaymentsQuery.limit].
    destruct (UserPaymentsQuery.limit q); reflexivity. }
  rewrite Hpages. split.
  - rewrite (map_ext _ (fun k => firstn (Pos.to_nat size)
                                   (skipn (k * Pos.to_nat size)
                                      (newest_first createdAt (selected createdAt u q w))))).
    + rewrite windows_concat. apply firstn_all2.
      rewrite length_newest_first.
      pose proof (ceil_div_covers (Z.of_nat (length (selected createdAt u q w)))
                    (Z.pos size) ltac:(lia) ltac:(lia)) as C.
      assert (0 <= ceil_div (Z.of_nat (length (selected createdAt u q w))) (Z.pos size)).
      { unfold ceil_div. apply Z.div_pos; lia. }
      nia.
    + intros k. unfold nth_page. rewrite page_items_run.
      cbn [at_page UserPaymentsQuery.page UserPaymentsQuery.limit].
      fold size. rewrite Nat2Pos.id by discriminate.
      replace (S k - 1)%nat with k by lia. reflexivity.
  - intros k.
    rewrite <- ceil_div_next by lia.
    unfold nth_page, next_reported, get_user_payments, json, selected.
    cbn [req_user fst body up_pagination hasNext at_page
         UserPaymentsQuery.page UserPaymentsQuery.limit].
    fold size.
    replace (Z.pos (Pos.of_nat (S k))) with (Z.of_nat (S k))
      by (rewrite <- Pos.of_nat_succ, Zpos_P_of_succ_nat; lia).
    unfold size. destruct (UserPaymentsQuery.limit q); reflexivity.
Qed.

Lemma user_payments_pages_witness :
  map (fun r => map Payment._id (page_items r))
    [nth_page sample_createdAt ada
       {| UserPaymentsQuery.page := None; UserPaymentsQuery.limit := Some 1%positive;
          UserPaymentsQuery.status := None;
          UserPaymentsQuery.startDate := None; UserPaymentsQuery.endDate := None |}
       world_three 1;
     nth_page sample_createdAt ada
       {| UserPaymentsQuery.page := None; UserPaymentsQuery.limit := Some 1%positive;
          UserPaymentsQuery.status := None;
          UserPaymentsQuery.startDate := None; UserPaymentsQuery.endDate := None |}
       world_three 2]
  = [["p2"]; ["p1"]]
  /\ concat (map (fun k => page_items
                     (nth_page sample_createdAt ada
                        {| UserPaymentsQuery.page := None;
                           UserPaymentsQuery.limit := Some 1%positive;
                           UserPaymentsQuery.status := None;
                           UserPaymentsQuery.startDate := None;
                           UserPaymentsQuery.endDate := None |}
                        world_three (S k)))
               (seq 0 2))
     = [failed2; paid1].
Proof.
  split; [reflexivity|].
  assert (D : NoDup (map sample_createdAt
                       (selected sample_createdAt ada
                          {| UserPaymentsQuery.page := None;
                             UserPaymentsQuery.limit := Some 1%positive;
                             UserPaymentsQuery.status := None;
                             UserPaymentsQuery.startDate := None;
                             UserPaymentsQuery.endDate := None |} world_three))).
  { repeat constructor; simpl; intuition discriminate. }
  destruct (user_payments_pages _ _ _ _ D) as [H _]. exact H.
Defined.

(** ** The placeholder secret *)

(** When the environment does not set [PAYSTACK_SECRET_KEY] (or sets it to
    the empty string), the webhook checks signatures against the placeholder
    ['sk_test_your_secret_key'] written in the source: a [charge.success]
    body signed with that placeholder passes the signature gate and
    completes the stored payment its reference names. *)
Theorem webhook_placeholder_secret :
  forall env payload w event data reference p,
    truthy_string (env_PAYSTACK_SECRET_KEY env) = false ->
    JSON_parse env payload = Some event ->
    get (Some event) "event" = inr (Some (JStr "charge.success")) ->
    get (Some event) "data" = inr data ->
    get data "reference" = inr reference ->
    findOne (has_reference reference) (payments w) = Some p ->
    Payment.status p <> completed ->
    authentic env (signed_with_placeholder payload) = true
    /\ fst (webhook_paystack env (signed_with_placeholder payload) w) = json 200 Body_OK
    /\ exists p',
        Payment_byId (Payment._id p)
          (snd (webhook_paystack env (signed_with_placeholder payload) w)) = Some p'
        /\ Payment.status p' = completed.
Proof.
  intros env payload w event data reference p Hk Hp He Hd Hr Hf Hs.
  assert (Ha : authentic env (signed_with_placeholder payload) = true).
  { unfold authentic, signed_with_placeholder, verifyPaystackSignature,
      PAYSTACK_SECRET_KEY, env_or.
    cbn [WebhookRequest.body WebhookRequest.x_paystack_signature truthy_string].
    rewrite Hk, digest_not_empty, String.eqb_refl. reflexivity. }
  split; [exact Ha|].
  destruct (webhook_charge_success_found env (signed_with_placeholder payload) w
              event data reference p Ha Hp He Hd Hr Hf Hs)
    as (i & p' & Hi & E & Hrun).
  destruct (markAsCompleted_effect env i data p w)
    as (q & E' & Hst & _ & _ & _ & _ & _ & Hid).
  rewrite E in E'. inversion E'; subst q.
  rewrite Hrun. cbn [fst snd]. split; [reflexivity|].
  exists p'. split; [|exact Hst].
  unfold Payment_byId. cbn [payments with_bookings with_payments].
  rewrite <- Hid. apply byId_upsert.
Qed.

Lemma webhook_placeholder_secret_witness :
  exists p',
    Payment_byId "p1"
      (snd (webhook_paystack env_unconfigured (signed_with_placeholder body_success)
              world_processing)) = Some p'
    /\ Payment.status p' = completed.
Proof.
  assert (Hp : exists p, findOne (has_reference (Some (JStr ref1)))
                           (payments world_processing) = Some p
                         /\ Payment._id p = "p1"
                         /\ Payment.status p <> completed).
  { eexists. split; [reflexivity|]. repeat split. discriminate. }
  destruct Hp as (p & Hf & Hid & Hs).
  destruct (webhook_placeholder_secret env_unconfigured body_success world_processing
              (JObj [("event", JStr "charge.success"); ("data", charge_data)])
              (Some charge_data) (Some (JStr ref1)) p
              eq_refl eq_refl eq_refl eq_refl eq_refl Hf Hs)
    as (_ & _ & p' & Hby & Hst).
  exists p'. rewrite Hid in Hby. split; [exact Hby|exact Hst].
Defined.

(** ** Verification when the provider fails *)

(** A verify call for a stored online payment fails closed when the provider
    does: if the request to the provider is rejected, or its answer carries
    no [data], the handler answers 500 ['Failed to verify payment'] with the
    error's message, and the payment, like every other stored document, is
    left as it was (it is not marked failed); only the one gateway call is
    on record. *)
Theorem verify_provider_error :
  forall env reference w p,
    findOne (referenced reference) (payments w) = Some p ->
    Payment.paymentMethod p <> cash ->
    (forall message,
        axios env (GetVerify ("Bearer " ++ PAYSTACK_SECRET_KEY env) reference)
        = Rejected message ->
        verify env reference w
        = (json 500 (Body_error "Failed to verify payment" (Some message)),
           logged (GetVerify ("Bearer " ++ PAYSTACK_SECRET_KEY env) reference) w))
    /\ (forall rdata vdata error,
           axios env (GetVerify ("Bearer " ++ PAYSTACK_SECRET_KEY env) reference)
           = Resolved rdata ->
           get rdata "data" = inr vdata ->
           get vdata "status" = inl error ->
           verify env reference w
           = (json 500 (Body_error "Failed to verify payment" (Some (exn_message error))),
              logged (GetVerify ("Bearer " ++ PAYSTACK_SECRET_KEY env) reference) w)).
Proof.
  intros env reference w p Hf Hm. apply not_cash in Hm.
  split.
  - intros message Hax.
    unfold verify, try_catch, bind, Payment_findOne, populate, bind,
      Booking_findById, Booking_findOne, User_findById, ret, await_axios, lift.
    rewrite Hf. cbn [doc]. rewrite Hm. cbn [negb]. rewrite Hax. reflexivity.
  - intros rdata vdata error Hax Hd Hs.
    unfold verify, try_catch, bind, Payment_findOne, populate, bind,
      Booking_findById, Booking_findOne, User_findById, ret, await_axios, lift.
    rewrite Hf. cbn [doc]. rewrite Hm. cbn [negb]. rewrite Hax, Hd, Hs. reflexivity.
Qed.

Lemma verify_provider_error_witness :
  exists p,
    findOne (referenced ref1) (payments world_paid) = Some p
    /\ verify (env_at 1700000060000 "p2" provider_unreachable) ref1 world_paid
       = (json 500 (Body_error "Failed to verify payment" (Some "connect ETIMEDOUT")),
          logged (GetVerify "Bearer sk_test_4f1d" ref1) world_paid).
Proof.
  exists paid1. split; [reflexivity|].
  assert (Hm : Payment.paymentMethod paid1 <> cash) by discriminate.
  destruct (verify_provider_error (env_at 1700000060000 "p2" provider_unreachable)
              ref1 world_paid paid1 eq_refl Hm) as [H _].
  apply (H "connect ETIMEDOUT"). reflexivity.
Defined.
